(** * The migrations command line (src/api/umzug/cli.js)

    A shallow embedding of [MigrationsCli] and of the script body that
    drives it.  The program is effectful JavaScript: it talks to a
    migration engine (the [umzug] instance), to the console, to the file
    system, to the clock and to [process.exit].  The embedding threads a
    [World] through a small monad whose outcomes are: a value is returned,
    an error is thrown (a rejected promise), or the process has exited. *)

From Stdlib Require Import ZArith DecimalString DecimalPos Ascii String.
From stdpp Require Import gmap strings list fin_maps.

Local Open Scope string_scope.
Local Open Scope list_scope.

(** ** JavaScript primitives used by the source *)

Module Js.

(** The character [\n]. *)
Definition nl : string := String "010"%char "".

(** [Number.prototype.toString()] on an integer (years, day fields,
    array lengths and indices: all far below 1e21, where JavaScript
    switches to exponent notation). *)
Definition toString (n : Z) : string := NilZero.string_of_int (Z.to_int n).

(** The first [n] characters of [cur] followed by [pad] repeated
    forever; empty when [pad] is empty and [cur] runs out. *)
Fixpoint fill (n : nat) (pad cur : string) : string :=
  match n with
  | O => ""
  | S n' =>
      match cur with
      | String c r => String c (fill n' pad r)
      | "" =>
          match pad with
          | String c r => String c (fill n' pad r)
          | "" => ""
          end
      end
  end.

(** [String.prototype.padStart(targetLength, padString)]. *)
Definition padStart (targetLength : nat) (padString s : string) : string :=
  if (targetLength <=? String.length s)%nat then s
  else fill (targetLength - String.length s) padString padString +:+ s.

(** [s] without its first [n] characters. *)
Fixpoint skip (n : nat) (s : string) : string :=
  match n, s with
  | O, _ => s
  | S _, "" => ""
  | S n', String _ r => skip n' r
  end.

(** [String.prototype.replace(pattern, replacement)] with a string
    pattern: only the first occurrence is replaced.  The source passes
    the replacement [''], so the [$]-patterns of a replacement string
    never come into play. *)
Fixpoint replace (pattern replacement s : string) : string :=
  if String.prefix pattern s
  then replacement +:+ skip (String.length pattern) s
  else match s with
       | "" => ""
       | String c r => String c (replace pattern replacement r)
       end.

(** [Array.prototype.join(sep)] on an array of strings. *)
Fixpoint join (sep : string) (l : list string) : string :=
  match l with
  | [] => ""
  | [x] => x
  | x :: r => x +:+ sep +:+ join sep r
  end.

(** JavaScript truthiness of a value that is a string or [undefined]. *)
Definition truthy (v : option string) : bool :=
  match v with
  | Some s => negb (String.eqb s "")
  | None => false
  end.

(** [v === lit] for a value that is a string or [undefined]. *)
Definition strictEq (v : option string) (lit : string) : bool :=
  match v with
  | Some s => String.eqb s lit
  | None => false
  end.

End Js.

(** ** Values exchanged with the engine *)

(** A thrown [Error]; the command line only ever reads its [message]. *)
Record error := Error { message : string }.

(** An element of the arrays the engine resolves to: [umzug.pending()],
    [up()] and [down()] give migration objects with a [file] property,
    [umzug.storage.executed()] gives plain names. *)
Inductive migration :=
| MigrationObj (file : string)
| MigrationName (name : string).

(** The value of [to] in the options object handed to [up]/[down]: a
    string taken from the command line, or the number [0]. *)
Inductive destination :=
| ToId (id : string)
| ToZero.

Inductive event_kind := Migrating | Migrated | Reverting | Reverted.

Global Instance event_kind_eq_dec : EqDecision event_kind.
Proof. solve_decision. Defined.

Global Instance destination_eq_dec : EqDecision destination.
Proof. solve_decision. Defined.

(** A promise settles to a value or to an error. *)
Inductive settled (A : Type) :=
| Resolved (a : A)
| Rejected (e : error).
Arguments Resolved {A} a.
Arguments Rejected {A} e.

(** The calls the command line makes on the engine, in order; [None] is a
    call without an options object. *)
Inductive engine_call :=
| CallPending
| CallExecuted
| CallUp (to : option destination)
| CallDown (to : option destination).

Global Instance engine_call_eq_dec : EqDecision engine_call.
Proof. solve_decision. Defined.

(** The engine behind [require('./umzug')], as the command line sees it.
    [up] and [down] also report the events they emit while they run. *)
Class Engine (S : Type) := {
  eng_pending : S -> settled (list migration) * S;
  eng_executed : S -> settled (list migration) * S;
  eng_up : option destination -> S ->
           list (event_kind * string) * settled (list migration) * S;
  eng_down : option destination -> S ->
             list (event_kind * string) * settled (list migration) * S;
}.

(** ** The world the process runs in *)

(** The fields of a [Date] read through its UTC getters; [utcMonth] is
    zero-based, as [getUTCMonth] returns it. *)
Record UTCDate := {
  utcFullYear : Z;
  utcMonth : Z;
  utcDate : Z;
  utcHours : Z;
  utcMinutes : Z;
  utcSeconds : Z;
}.

(** A listener is represented by the line it hands to [console.log] for
    the id it is called with. *)
Definition listener : Type := string -> string.

(** What the operating system does to a copy from one path to another,
    other than finding the source absent: [None] when both streams run to
    their end, or the error one of them raises (a directory that is
    missing, a name that is too long, a refused permission, a full disk)
    together with what is then left at the target path, if anything. *)
Definition fault : Type := option (error * option string).

Record World (S : Type) := mkWorld {
  engine : S;
  listeners : list (event_kind * listener);
  stdout : list string;
  files : gmap string string;
  faults : string -> string -> fault;
  cwd : string;
  clock : UTCDate;
  trace : list engine_call;
}.
Arguments mkWorld {S}.
Arguments engine {S}.
Arguments listeners {S}.
Arguments stdout {S}.
Arguments files {S}.
Arguments faults {S}.
Arguments cwd {S}.
Arguments clock {S}.
Arguments trace {S}.

Inductive outcome (A : Type) :=
| Return (a : A)
| Throw (e : error)
| Exit (code : Z).
Arguments Return {A} a.
Arguments Throw {A} e.
Arguments Exit {A} code.

Definition M (S A : Type) : Type := World S -> outcome A * World S.

Definition ret {S A} (a : A) : M S A := fun w => (Return a, w).

Definition bind {S A B} (m : M S A) (k : A -> M S B) : M S B :=
  fun w =>
    match m w with
    | (Return a, w') => k a w'
    | (Throw e, w') => (Throw e, w')
    | (Exit c, w') => (Exit c, w')
    end.

Global Instance M_ret {S} : MRet (M S) := fun A => @ret S A.
Global Instance M_bind {S} : MBind (M S) := fun A B k m => @bind S A B m k.

Definition throw {S A} (e : error) : M S A := fun w => (Throw e, w).

(** [process.exit(code)]; [process.exit()] exits with [process.exitCode],
    which the program never sets: code 0. *)
Definition process_exit {S A} (code : Z) : M S A := fun w => (Exit code, w).

Definition set_stdout {S} (o : list string) (w : World S) : World S :=
  mkWorld (engine w) (listeners w) o (files w) (faults w) (cwd w) (clock w)
          (trace w).

Definition set_files {S} (f : gmap string string) (w : World S) : World S :=
  mkWorld (engine w) (listeners w) (stdout w) f (faults w) (cwd w) (clock w)
          (trace w).

Definition set_listeners {S} (l : list (event_kind * listener)) (w : World S)
  : World S :=
  mkWorld (engine w) l (stdout w) (files w) (faults w) (cwd w) (clock w)
          (trace w).

Definition set_engine {S} (s : S) (c : engine_call) (w : World S) : World S :=
  mkWorld s (listeners w) (stdout w) (files w) (faults w) (cwd w) (clock w)
          (trace w ++ [c]).

(** [console.log(line)]. *)
Definition console_log {S} (line : string) : M S unit :=
  fun w => (Return tt, set_stdout (stdout w ++ [line]) w).

(** [umzug.on(kind, l)]. *)
Definition on {S} (kind : event_kind) (l : listener) : M S unit :=
  fun w => (Return tt, set_listeners (listeners w ++ [(kind, l)]) w).

(** The lines the registered listeners print for one emitted event, in
    registration order. *)
Definition heard (ls : list (event_kind * listener)) (ev : event_kind * string)
  : list string :=
  omap (fun kl => if decide (kl.1 = ev.1) then Some (kl.2 ev.2) else None) ls.

Definition emit_all {S} (evs : list (event_kind * string)) (w : World S)
  : World S :=
  set_stdout (stdout w ++ concat (map (heard (listeners w)) evs)) w.

Definition settle {S A} (r : settled A) : M S A :=
  match r with
  | Resolved a => ret a
  | Rejected e => throw e
  end.

(** ** The command line *)

(** The object built at line 16 of the source from [process.argv[3]]. *)
Record options := {
  migrateTo : option string;
  undoTo : option string;
  migrationName : option string;
}.

Section Cli.

Context {S : Type} `{Engine S}.

(** *** Calls on the engine *)

Definition umzug_pending : M S (list migration) :=
  fun w =>
    let '(r, s') := eng_pending (engine w) in
    settle r (set_engine s' CallPending w).

Definition umzug_storage_executed : M S (list migration) :=
  fun w =>
    let '(r, s') := eng_executed (engine w) in
    settle r (set_engine s' CallExecuted w).

Definition umzug_up (to : option destination) : M S (list migration) :=
  fun w =>
    let '(evs, r, s') := eng_up to (engine w) in
    settle r (emit_all evs (set_engine s' (CallUp to) w)).

Definition umzug_down (to : option destination) : M S (list migration) :=
  fun w =>
    let '(evs, r, s') := eng_down to (engine w) in
    settle r (emit_all evs (set_engine s' (CallDown to) w)).

(** *** The clock and the file system *)

Definition new_Date : M S UTCDate := fun w => (Return (clock w), w).

Definition process_cwd : M S string := fun w => (Return (cwd w), w).

(** The segments of a path, cut at every ['/']. *)
Fixpoint split (path : string) : list string :=
  match path with
  | "" => [""]
  | String c r =>
      if Ascii.eqb c "/" then "" :: split r
      else match split r with
           | seg :: segs => String c seg :: segs
           | [] => [String c ""]
           end
  end.

(** One step of the normalisation of a rooted path: empty segments and
    ['.'] are dropped, ['..'] takes the segment before it away (none at
    the root), any other segment is kept. *)
Definition push (acc : list string) (seg : string) : list string :=
  if String.eqb seg "" || String.eqb seg "." then acc
  else if String.eqb seg ".." then removelast acc
  else acc ++ [seg].

Definition normalize (path : string) : list string :=
  fold_left push (split path) [].

Definition absolute (path : string) : bool := String.prefix "/" path.

(** [path.resolve(cwd, dir, file)] on POSIX: the arguments are joined from
    the right up to the first absolute one, and the result is normalised.
    [cwd] is what [process.cwd()] returns, an absolute path. *)
Definition path_resolve (cwd dir file : string) : string :=
  let joined :=
    if absolute file then file
    else if absolute dir then dir +:+ "/" +:+ file
    else cwd +:+ "/" +:+ dir +:+ "/" +:+ file in
  "/" +:+ Js.join "/" (normalize joined).


Definition enoent (path : string) : error :=
  Error ("ENOENT: no such file or directory, open '" +:+ path +:+ "'").

(** [fs.createReadStream(source)] piped into
    [fs.createWriteStream(target)], awaited until the write stream has
    finished or one of the two has raised an error.  The operating system
    may fail the copy ([faults]), leaving at the target what it says.
    Otherwise the write stream creates (or empties) the target, and the
    read stream either delivers the content of the source or, the source
    being absent, raises ENOENT. *)
Definition pipe (dir sourceName targetName : string) : M S unit :=
  fun w =>
    let source := path_resolve dir "migrations" sourceName in
    let target := path_resolve dir "migrations" targetName in
    match faults w source target with
    | Some (e, leftover) =>
        (Throw e,
         match leftover with
         | Some content => set_files (<[target := content]> (files w)) w
         | None => w
         end)
    | None =>
        match files w !! source with
        | Some content =>
            (Return tt, set_files (<[target := content]> (files w)) w)
        | None =>
            (Throw (enoent source), set_files (<[target := ""]> (files w)) w)
        end
    end.

(** *** [MigrationsCli] *)

Definition constructor : M S unit :=
  on Migrating (fun migration => "== " +:+ migration +:+ ": migrating ==");;
  on Migrated (fun migration => "== " +:+ migration +:+ ": migrated ==" +:+ Js.nl);;
  on Reverting (fun migration => "== " +:+ migration +:+ ": reverting ==");;
  on Reverted (fun migration => "== " +:+ migration +:+ ": reverted ==" +:+ Js.nl).

Definition checkMigrations : M S unit :=
  migrations ← umzug_pending;
  (if (0 <? length migrations)%nat
   then
     console_log
       (Js.join Js.nl
          [ "You have " +:+ Js.toString (Z.of_nat (length migrations))
            +:+ " pending migrations.";
            "Use '$ npm run umzug db:migrate:status' to show them.";
            "Use '$ npm run umzug db:migrate' to execute all pending migrations." ]);;
     process_exit 1
   else mret tt);;
  process_exit 0.

Definition migrate (destination : option destination) : M S unit :=
  migrations ←
    match destination with
    | Some to => umzug_up (Some to)
    | None => umzug_up None
    end;
  if (0 <? length migrations)%nat
  then console_log ("Executed " +:+ Js.toString (Z.of_nat (length migrations))
                     +:+ " migrations.")
  else console_log "No migrations were executed.".

Definition undo (destination : option destination) : M S unit :=
  migrations ←
    match destination with
    | Some to => umzug_down (Some to)
    | None => umzug_down None
    end;
  if (0 <? length migrations)%nat
  then console_log ("Reverted " +:+ Js.toString (Z.of_nat (length migrations))
                     +:+ " migrations.")
  else console_log "No migrations were reverted.".

(** [(migration.file || migration).replace('.js', '')]: a migration
    object whose [file] is falsy is itself the receiver, and has no
    [replace] method. *)
Definition fileName_of (migration : migration) : M S string :=
  match migration with
  | MigrationObj file =>
      if Js.truthy (Some file)
      then mret (Js.replace ".js" "" file)
      else throw (Error "(migration.file || migration).replace is not a function")
  | MigrationName name => mret (Js.replace ".js" "" name)
  end.

Definition _printMigration (migration : migration) (index : option Z)
  : M S unit :=
  fileName ← fileName_of migration;
  let prefix :=
    match index with
    | Some i => Js.toString i +:+ ")"
    | None => "-"
    end in
  console_log ("  " +:+ prefix +:+ " " +:+ fileName).

(** [Array.prototype.forEach] from position [index] on. *)
Fixpoint forEach {A} (f : A -> nat -> M S unit) (index : nat) (l : list A)
  : M S unit :=
  match l with
  | [] => mret tt
  | x :: r => f x index;; forEach f (Datatypes.S index) r
  end.

Definition _printMigrations (migrations : list migration) : M S unit :=
  forEach (fun migration index =>
             _printMigration migration (Some (Z.of_nat index + 1)%Z))
          0 migrations.

Definition printPending : M S unit :=
  migrations ← umzug_pending;
  if (0 <? length migrations)%nat
  then console_log "Pending migrations:";; _printMigrations migrations
  else console_log "No pending migrations.".

Definition printExecuted : M S unit :=
  migrations ← umzug_storage_executed;
  if (0 <? length migrations)%nat
  then console_log "Executed migrations:";; _printMigrations migrations
  else console_log "No executed migrations.".

Definition _format (number : Z) : string :=
  Js.padStart 2 "0" (Js.toString number).

Definition timestamp_of (date : UTCDate) : string :=
  Js.join ""
    [ Js.toString (utcFullYear date);
      _format (utcMonth date + 1)%Z;
      _format (utcDate date);
      _format (utcHours date);
      _format (utcMinutes date);
      _format (utcSeconds date) ].

(** The [catch] block of the source closes the two streams and throws the
    error again: a failed copy leaves [generate] with that error. *)
Definition generate (migrationName : string) : M S unit :=
  date ← new_Date;
  let timestamp := timestamp_of date in
  let migrationFileName := timestamp +:+ "-" +:+ migrationName +:+ ".js" in
  dir ← process_cwd;
  pipe dir "migration.sample.js" migrationFileName;;
  console_log ("Migration file '" +:+ migrationFileName +:+ "' has been created.").

Definition help : string :=
  Js.join Js.nl
    [ "Available tasks:";
      "  - db:migrate [destination] - Execute all pending migrations [up to specified one]";
      "  - db:migrate:status - Show all pending migrations";
      "  - db:migrate:history - Show all executed migrations";
      "  - db:migrate:undo [destination] - Undo last executed migration or all down to destination if specified";
      "  - db:migrate:undo:all - Undo all executed migrations";
      "  - db:reset - Undo all executed migrations and then execute them again";
      "  - migration:generate <migration name> - Create a new empty migration file" ].

Definition runTask (task : option string) (o : options) : M S unit :=
  if Js.strictEq task "db:migrate:check" then checkMigrations
  else if Js.strictEq task "db:migrate" then migrate (ToId <$> migrateTo o)
  else if Js.strictEq task "db:migrate:status" then printPending
  else if Js.strictEq task "db:migrate:history" then printExecuted
  else if Js.strictEq task "db:migrate:undo" then undo (ToId <$> undoTo o)
  else if Js.strictEq task "db:migrate:undo:all" then undo (Some ToZero)
  else if Js.strictEq task "db:reset" then
    undo (Some ToZero);; migrate None
  else if Js.strictEq task "migration:generate" then
    match migrationName o with
    | Some name =>
        if Js.truthy (Some name) then generate name
        else throw (Error "Migration name should be specified.")
    | None => throw (Error "Migration name should be specified.")
    end
  else
    (if Js.truthy task then throw (Error "Task not found.") else mret tt);;
    console_log help.

(** *** The script body (lines 205-220) *)

(** [.then(() => process.exit()).catch(error => ...)]: the exit code and
    the world the process leaves behind. *)
Definition finish (r : outcome unit * World S) : Z * World S :=
  match r with
  | (Return _, w) => (0, w)%Z
  | (Throw error, w) =>
      (1, set_stdout (stdout w ++ ["Error: " +:+ message error]) w)%Z
  | (Exit code, w) => (code, w)
  end.

(** [process.argv] holds the interpreter, the script path, then the
    arguments; line 207 reads the task from it. *)
Definition task_of (argv : list string) : option string := argv !! 2%nat.

(** Lines 208-212: the options object. *)
Definition options_of (argv : list string) : options :=
  let task := task_of argv in
  if Js.strictEq task "db:migrate"
  then {| migrateTo := argv !! 3%nat; undoTo := None; migrationName := None |}
  else if Js.strictEq task "db:migrate:undo"
  then {| migrateTo := None; undoTo := argv !! 3%nat; migrationName := None |}
  else if Js.strictEq task "migration:generate"
  then {| migrateTo := None; undoTo := None; migrationName := argv !! 3%nat |}
  else {| migrateTo := None; undoTo := None; migrationName := None |}.

(** The whole script.  An exception escaping the constructor would be
    uncaught (exit code 1, nothing on standard output). *)
Definition main (argv : list string) (w : World S) : Z * World S :=
  match constructor w with
  | (Return _, w1) => finish (runTask (task_of argv) (options_of argv) w1)
  | (Throw _, w1) => (1, w1)%Z
  | (Exit code, w1) => (code, w1)
  end.

End Cli.

(** ** A reference engine *)

Module SpecEngine.

(** Modelled from the spec: the engine module [./umzug] (the configured
    instance of the migration library) is not part of the sources at hand.
    This is the engine of section 4.3 of the specification over units that
    always succeed: [units] is the loader's ordered list of unit file
    names, [logged] the ids the store holds. *)
Record state := {
  units : list string;
  logged : list string;
}.

Definition mem (x : string) (l : list string) : bool :=
  existsb (String.eqb x) l.

Definition pending_ids (s : state) : list string :=
  List.filter (fun u => negb (mem u (logged s))) (units s).

Definition executed_ids (s : state) : list string :=
  List.filter (fun u => mem u (logged s)) (units s).

(** The prefix of [l] up to and including the first [to]. *)
Fixpoint upto (to : string) (l : list string) : option (list string) :=
  match l with
  | [] => None
  | x :: r => if String.eqb x to then Some [x] else (cons x) <$> upto to r
  end.

Definition not_found : error := Error "Unable to find migration".

(** Modelled from the spec: [pending()] of the missing engine, the loaded
    units that are not logged, in unit order. *)
Definition pending (s : state) : settled (list migration) * state :=
  (Resolved (MigrationObj <$> pending_ids s), s).

(** Modelled from the spec: [storage.executed()] of the missing engine,
    the logged units in unit order. *)
Definition executed (s : state) : settled (list migration) * state :=
  (Resolved (MigrationName <$> executed_ids s), s).

(** Modelled from the spec: [up(options)] of the missing engine; the
    pending units, cut after [to] when it is given, are applied in
    ascending order, each between its two events. *)
Definition up (to : option destination) (s : state)
  : list (event_kind * string) * settled (list migration) * state :=
  let selected :=
    match to with
    | None => Some (pending_ids s)
    | Some (ToId id) => upto id (pending_ids s)
    | Some ToZero => None
    end in
  match selected with
  | Some l =>
      (flat_map (fun u => [(Migrating, u); (Migrated, u)]) l,
       Resolved (MigrationObj <$> l),
       {| units := units s; logged := logged s ++ l |})
  | None => ([], Rejected not_found, s)
  end.

(** Modelled from the spec: [down(options)] of the missing engine; the
    newest executed unit alone, or all of them for [to: 0], or those down
    to [to], are reverted in descending order. *)
Definition down (to : option destination) (s : state)
  : list (event_kind * string) * settled (list migration) * state :=
  let newest_first := rev (executed_ids s) in
  let selected :=
    match to with
    | None => Some (take 1 newest_first)
    | Some ToZero => Some newest_first
    | Some (ToId id) => upto id newest_first
    end in
  match selected with
  | Some l =>
      (flat_map (fun u => [(Reverting, u); (Reverted, u)]) l,
       Resolved (MigrationObj <$> l),
       {| units := units s;
          logged := List.filter (fun u => negb (mem u l)) (logged s) |})
  | None => ([], Rejected not_found, s)
  end.

#[export] Instance spec_engine : Engine state := {
  eng_pending := pending;
  eng_executed := executed;
  eng_up := up;
  eng_down := down;
}.

(** A project with three units, the first of which has run, at
    2023-01-01 12:00:00 UTC. *)
Definition sample_state : state := {|
  units := [ "20220101000000-a.js"; "20220202000000-b.js.old.js";
             "20220303000000-c.js" ];
  logged := [ "20220101000000-a.js" ];
|}.

Definition sample_date : UTCDate := {|
  utcFullYear := 2023; utcMonth := 0; utcDate := 1;
  utcHours := 12; utcMinutes := 0; utcSeconds := 0;
|}.

Definition sample_world : World state := {|
  engine := sample_state;
  listeners := [];
  stdout := [];
  files := {[ "/app/migrations/migration.sample.js" := "module.exports = {};" ]};
  faults := fun _ _ => None;
  cwd := "/app";
  clock := sample_date;
  trace := [];
|}.

End SpecEngine.


(** ** Vocabulary of the statements *)

Definition kind_name (k : event_kind) : string :=
  match k with
  | Migrating => "migrating"
  | Migrated => "migrated"
  | Reverting => "reverting"
  | Reverted => "reverted"
  end.

(** The line logged for an event: [== <id>: <kind> ==], followed by a
    line break after the two completion events. *)
Definition log_line (k : event_kind) (id : string) : string :=
  "== " +:+ id +:+ ": " +:+ kind_name k +:+ " =="
  +:+ match k with
      | Migrated | Reverted => Js.nl
      | Migrating | Reverting => ""
      end.

(** The world once [new MigrationsCli()] has run. *)
Definition constructed {S} `{Engine S} (w : World S) : World S :=
  (constructor w).2.

(** What standard output gains while the engine emits [evs], given the
    listeners [ls] that were registered before the constructor ran. *)
Definition event_lines (ls : list (event_kind * listener))
    (evs : list (event_kind * string)) : list string :=
  concat (map (fun ev => heard ls ev ++ [log_line ev.1 ev.2]) evs).

(** The line [migrate] prints for [n] applied migrations. *)
Definition executed_line (n : nat) : string :=
  if (0 <? n)%nat
  then "Executed " +:+ Js.toString (Z.of_nat n) +:+ " migrations."
  else "No migrations were executed.".

(** The line [undo] prints for [n] reverted migrations. *)
Definition reverted_line (n : nat) : string :=
  if (0 <? n)%nat
  then "Reverted " +:+ Js.toString (Z.of_nat n) +:+ " migrations."
  else "No migrations were reverted.".

(** The verbs [runTask] has a case for. *)
Definition dispatch_table : list string :=
  [ "db:migrate:check"; "db:migrate"; "db:migrate:status"; "db:migrate:history";
    "db:migrate:undo"; "db:migrate:undo:all"; "db:reset"; "migration:generate" ].

(** The file name of a listed migration. *)
Definition file_of (m : migration) : string :=
  match m with
  | MigrationObj file => file
  | MigrationName name => name
  end.

(** A migration object carries a non-empty file name. *)
Definition has_file (m : migration) : Prop :=
  match m with
  | MigrationObj file => file <> ""
  | MigrationName _ => True
  end.

(** [r] is [s] with the first occurrence of [pat] removed: the occurrence
    that starts earliest; [r] is [s] itself when [pat] does not occur. *)
Definition first_removed (pat s r : string) : Prop :=
  (exists a b, s = a +:+ pat +:+ b /\ r = a +:+ b /\
     forall a' b', s = a' +:+ pat +:+ b' -> (String.length a <= String.length a')%nat)
  \/ ((forall a b, s <> a +:+ pat +:+ b) /\ r = s).

(** The line of a listing for the migration at (zero-based) position [i]. *)
Definition listing_line (i : nat) (m : migration) : string :=
  "  " +:+ Js.toString (Z.of_nat i + 1) +:+ ") " +:+ Js.replace ".js" "" (file_of m).

(** The last [k] decimal digits of [n], most significant first. *)
Fixpoint fixed_width (k : nat) (n : Z) : string :=
  match k with
  | O => ""
  | Datatypes.S k' =>
      fixed_width k' (n / 10)
      +:+ String (ascii_of_nat (48 + Z.to_nat (n mod 10))) ""
  end.

(** The timestamp format [YYYYMMDDHHMMSS]. *)
Definition YYYYMMDDHHMMSS (d : UTCDate) : string :=
  fixed_width 4 (utcFullYear d) +:+ fixed_width 2 (utcMonth d + 1)
  +:+ fixed_width 2 (utcDate d) +:+ fixed_width 2 (utcHours d)
  +:+ fixed_width 2 (utcMinutes d) +:+ fixed_width 2 (utcSeconds d).

(** The ranges of the UTC getters of a valid [Date]. *)
Definition in_range (d : UTCDate) : Prop :=
  (0 <= utcMonth d <= 11 /\ 1 <= utcDate d <= 31 /\ 0 <= utcHours d <= 23
   /\ 0 <= utcMinutes d <= 59 /\ 0 <= utcSeconds d <= 59)%Z.

(** No call on the engine, no change of its state, no change of the
    files. *)
Definition untouched {S} (w w' : World S) : Prop :=
  trace w' = trace w /\ engine w' = engine w /\ files w' = files w.

(** Every character is one of [0] .. [9]. *)
Fixpoint digits_only (s : string) : bool :=
  match s with
  | "" => true
  | String c r =>
      (48 <=? nat_of_ascii c)%nat && (nat_of_ascii c <=? 57)%nat && digits_only r
  end.


(** [pat] occurs somewhere in [s]. *)
Fixpoint occurs (pat s : string) : bool :=
  String.prefix pat s
  || match s with
     | "" => false
     | String _ r => occurs pat r
     end.

(** No character of [s] is a full stop. *)
Fixpoint no_dot (s : string) : bool :=
  match s with
  | "" => true
  | String c r => negb (Ascii.eqb c ".") && no_dot r
  end.

(** Lexicographic order on lists of integers of the same length. *)
Fixpoint lex_lt (a b : list Z) : Prop :=
  match a, b with
  | x :: a', y :: b' => (x < y)%Z \/ (x = y /\ lex_lt a' b')
  | _, _ => False
  end.

(** [d1] is an earlier instant than [d2]. *)
Definition earlier (d1 d2 : UTCDate) : Prop :=
  lex_lt [ utcFullYear d1; utcMonth d1; utcDate d1;
           utcHours d1; utcMinutes d1; utcSeconds d1 ]
         [ utcFullYear d2; utcMonth d2; utcDate d2;
           utcHours d2; utcMinutes d2; utcSeconds d2 ].

(** The engine was not called and is in the state it was in. *)
Definition engine_kept {S} (w w' : World S) : Prop :=
  trace w' = trace w /\ engine w' = engine w.

(** The computation [m] relates every world to the one it leaves. *)
Definition keeps {S A} (R : World S -> World S -> Prop) (m : M S A) : Prop :=
  forall w, R w (m w).2.

(** The computation [m] ends the process with code 0 or 1, if at all. *)
Definition exits_0_or_1 {S A} (m : M S A) : Prop :=
  forall w code, (m w).1 = Exit code -> code = 0%Z \/ code = 1%Z.

(** ** An engine that answers as told *)

Module Scripted.

(** A stand-in for the engine that emits no event and keeps no state but
    the answers it gives, for the paths on which the engine rejects. *)
Record answers := {
  on_pending : settled (list migration);
  on_executed : settled (list migration);
  on_up : settled (list migration);
  on_down : settled (list migration);
}.

#[export] Instance scripted_engine : Engine answers := {
  eng_pending a := (on_pending a, a);
  eng_executed a := (on_executed a, a);
  eng_up _ a := ([], on_up a, a);
  eng_down _ a := ([], on_down a, a);
}.

Definition unavailable : error := Error "storage unavailable".

(** The world of [SpecEngine.sample_world] around a scripted engine. *)
Definition world_of (a : answers) : World answers := {|
  engine := a;
  listeners := [];
  stdout := [];
  files := {[ "/app/migrations/migration.sample.js" := "module.exports = {};" ]};
  faults := fun _ _ => None;
  cwd := "/app";
  clock := SpecEngine.sample_date;
  trace := [];
|}.

End Scripted.

(** The sample world around another state of the reference engine. *)
Definition sample_world_with (s : SpecEngine.state) : World SpecEngine.state :=
  mkWorld s [] [] (files SpecEngine.sample_world) (fun _ _ => None) "/app"
          SpecEngine.sample_date [].

(** ** Basic facts *)

Section Basics.

Context {S : Type} `{Engine S}.


Lemma constructed_listeners (w : World S) :
  listeners (constructed w) =
  listeners w ++ [ (Migrating, log_line Migrating); (Migrated, log_line Migrated);
                   (Reverting, log_line Reverting); (Reverted, log_line Reverted) ].
Proof.
  unfold constructed, constructor, on, mbind, M_bind, bind. simpl.
  rewrite <- !app_assoc. reflexivity.
Qed.

Lemma constructed_fields (w : World S) :
  engine (constructed w) = engine w /\ stdout (constructed w) = stdout w /\
  files (constructed w) = files w /\ cwd (constructed w) = cwd w /\
  clock (constructed w) = clock w /\ trace (constructed w) = trace w.
Proof. repeat split. Qed.

Lemma heard_app ls1 ls2 ev : heard (ls1 ++ ls2) ev = heard ls1 ev ++ heard ls2 ev.
Proof. unfold heard. apply omap_app. Qed.

Lemma heard_constructed (w : World S) ev :
  heard (listeners (constructed w)) ev = heard (listeners w) ev ++ [log_line ev.1 ev.2].
Proof.
  rewrite constructed_listeners, heard_app. f_equal.
  destruct ev as [[] id]; reflexivity.
Qed.

Lemma emitted_constructed (w : World S) evs :
  concat (map (heard (listeners (constructed w))) evs) = event_lines (listeners w) evs.
Proof.
  unfold event_lines. f_equal. apply map_ext. intros ev. apply heard_constructed.
Qed.

End Basics.

(** ** The verbs, one by one *)

Section Verbs.

Context {S : Type} `{Engine S}.

Lemma main_runs (argv : list string) (w : World S) :
  main argv w = finish (runTask (task_of argv) (options_of argv) (constructed w)).
Proof. reflexivity. Qed.

Lemma main_migrate (argv : list string) (w : World S) :
  argv !! 2%nat = Some "db:migrate" ->
  main argv w = finish (migrate (ToId <$> argv !! 3%nat) (constructed w)).
Proof.
  intros Hv. rewrite main_runs. unfold options_of, task_of. rewrite Hv. reflexivity.
Qed.

Lemma main_undo (argv : list string) (w : World S) :
  argv !! 2%nat = Some "db:migrate:undo" ->
  main argv w = finish (undo (ToId <$> argv !! 3%nat) (constructed w)).
Proof.
  intros Hv. rewrite main_runs. unfold options_of, task_of. rewrite Hv. reflexivity.
Qed.

Lemma main_undo_all (argv : list string) (w : World S) :
  argv !! 2%nat = Some "db:migrate:undo:all" ->
  main argv w = finish (undo (Some ToZero) (constructed w)).
Proof.
  intros Hv. rewrite main_runs. unfold options_of, task_of. rewrite Hv. reflexivity.
Qed.

Lemma main_reset (argv : list string) (w : World S) :
  argv !! 2%nat = Some "db:reset" ->
  main argv w = finish ((undo (Some ToZero);; migrate None) (constructed w)).
Proof.
  intros Hv. rewrite main_runs. unfold options_of, task_of. rewrite Hv. reflexivity.
Qed.

Lemma main_check (argv : list string) (w : World S) :
  argv !! 2%nat = Some "db:migrate:check" ->
  main argv w = finish (checkMigrations (constructed w)).
Proof.
  intros Hv. rewrite main_runs. unfold options_of, task_of. rewrite Hv. reflexivity.
Qed.

Lemma main_status (argv : list string) (w : World S) :
  argv !! 2%nat = Some "db:migrate:status" ->
  main argv w = finish (printPending (constructed w)).
Proof.
  intros Hv. rewrite main_runs. unfold options_of, task_of. rewrite Hv. reflexivity.
Qed.

Lemma main_history (argv : list string) (w : World S) :
  argv !! 2%nat = Some "db:migrate:history" ->
  main argv w = finish (printExecuted (constructed w)).
Proof.
  intros Hv. rewrite main_runs. unfold options_of, task_of. rewrite Hv. reflexivity.
Qed.

Lemma main_generate (argv : list string) (w : World S) (name : string) :
  argv !! 2%nat = Some "migration:generate" ->
  argv !! 3%nat = Some name -> name <> "" ->
  main argv w = finish (generate name (constructed w)).
Proof.
  intros Hv Hn Hne. rewrite main_runs. unfold options_of, task_of. rewrite Hv.
  cbn. rewrite Hn.
  destruct (String.eqb_spec name "") as [->|_]; [congruence | reflexivity].
Qed.

(** What [migrate] does, in terms of what the engine answers. *)
Lemma migrate_run (to : option destination) (w : World S) evs r s' :
  eng_up to (engine w) = (evs, r, s') ->
  let w1 := emit_all evs (set_engine s' (CallUp to) w) in
  migrate to w =
  match r with
  | Resolved ms => (Return tt, set_stdout (stdout w1 ++ [executed_line (length ms)]) w1)
  | Rejected e => (Throw e, w1)
  end.
Proof.
  intros Hup. unfold migrate, umzug_up, mbind, M_bind, bind.
  destruct to; rewrite Hup; destruct r as [ms|e]; simpl; try reflexivity;
    unfold executed_line; destruct (0 <? length ms)%nat; reflexivity.
Qed.

Lemma undo_run (to : option destination) (w : World S) evs r s' :
  eng_down to (engine w) = (evs, r, s') ->
  let w1 := emit_all evs (set_engine s' (CallDown to) w) in
  undo to w =
  match r with
  | Resolved ms => (Return tt, set_stdout (stdout w1 ++ [reverted_line (length ms)]) w1)
  | Rejected e => (Throw e, w1)
  end.
Proof.
  intros Hdown. unfold undo, umzug_down, mbind, M_bind, bind.
  destruct to; rewrite Hdown; destruct r as [ms|e]; simpl; try reflexivity;
    unfold reverted_line; destruct (0 <? length ms)%nat; reflexivity.
Qed.


(** C5: [db:migrate] calls the engine's [up] once, with [{ to: <argument> }]
    when a positional argument was given and with no options otherwise;
    when [up] resolves to N migrations the run ends with the line
    'Executed N migrations.' (N > 0) or 'No migrations were executed.'
    (N = 0), after the lines of the events the engine emitted, and exits
    with code 0. *)
Theorem migrate_calls_up_and_prints_count
    (argv : list string) (w : World S) evs r s' :
  argv !! 2%nat = Some "db:migrate" ->
  eng_up (ToId <$> argv !! 3%nat) (engine w) = (evs, r, s') ->
  (forall id, argv !! 3%nat = Some id ->
     trace (main argv w).2 = trace w ++ [CallUp (Some (ToId id))])
  /\ (argv !! 3%nat = None -> trace (main argv w).2 = trace w ++ [CallUp None])
  /\ engine (main argv w).2 = s'
  /\ (forall ms, r = Resolved ms ->
        (main argv w).1 = 0%Z
        /\ stdout (main argv w).2 =
           stdout w ++ event_lines (listeners w) evs
           ++ [ if (0 <? length ms)%nat
                then "Executed " +:+ Js.toString (Z.of_nat (length ms))
                     +:+ " migrations."
                else "No migrations were executed." ]).
Proof.
  intros Hv Hup. rewrite (main_migrate _ _ Hv).
  rewrite (migrate_run _ (constructed w) evs r s' Hup).
  split; [|split; [|split]].
  - intros id Hid. rewrite Hid. destruct r; reflexivity.
  - intros Hid. rewrite Hid. destruct r; reflexivity.
  - destruct r; reflexivity.
  - intros ms ->. split; [reflexivity|]. cbn.
    rewrite emitted_constructed, <- app_assoc. reflexivity.
Qed.

(** C4: [db:migrate:undo] calls the engine's [down] once, with
    [{ to: <argument> }] when a positional argument was given and with no
    options otherwise; [db:migrate:undo:all] calls [down] once with
    [{ to: 0 }] whatever follows the verb; the engine is left in the state
    that call gave it; neither verb makes any other call on the engine, so
    neither calls [up]. *)
Theorem undo_calls_down (argv : list string) (w : World S) :
  (argv !! 2%nat = Some "db:migrate:undo" ->
     (forall id, argv !! 3%nat = Some id ->
        trace (main argv w).2 = trace w ++ [CallDown (Some (ToId id))]
        /\ engine (main argv w).2 = (eng_down (Some (ToId id)) (engine w)).2)
     /\ (argv !! 3%nat = None ->
           trace (main argv w).2 = trace w ++ [CallDown None]
           /\ engine (main argv w).2 = (eng_down None (engine w)).2))
  /\ (argv !! 2%nat = Some "db:migrate:undo:all" ->
        trace (main argv w).2 = trace w ++ [CallDown (Some ToZero)]
        /\ engine (main argv w).2 = (eng_down (Some ToZero) (engine w)).2)
  /\ (argv !! 2%nat = Some "db:migrate:undo"
       \/ argv !! 2%nat = Some "db:migrate:undo:all" ->
       forall to, CallUp to ∈ trace (main argv w).2 -> CallUp to ∈ trace w).
Proof.
  assert (Hone : forall to, trace (finish (undo to (constructed w))).2
                            = trace w ++ [CallDown to]
                            /\ engine (finish (undo to (constructed w))).2
                               = (eng_down to (engine w)).2).
  { intros to.
    change (engine w) with (engine (constructed w)).
    destruct (eng_down to (engine (constructed w))) as [[evs r] s'] eqn:Hdown.
    rewrite (undo_run _ _ _ _ _ Hdown). destruct r; split; reflexivity. }
  split; [|split].
  - intros Hv. rewrite (main_undo _ _ Hv).
    split; [intros id Hid | intros Hid]; rewrite Hid; apply Hone.
  - intros Hv. rewrite (main_undo_all _ _ Hv). apply Hone.
  - intros [Hv|Hv] to.
    + rewrite (main_undo _ _ Hv), (proj1 (Hone _)).
      rewrite elem_of_app, list_elem_of_singleton. intros [?|?]; [done | discriminate].
    + rewrite (main_undo_all _ _ Hv), (proj1 (Hone _)).
      rewrite elem_of_app, list_elem_of_singleton. intros [?|?]; [done | discriminate].
Qed.

(** X14: when the revert of [db:reset] rejects, [up] is not called: the
    only call on the engine is [down] with [{ to: 0 }], and the exit code
    is 1. *)
Lemma reset_stops_when_revert_fails
    (argv : list string) (w : World S) evs e s1 :
  argv !! 2%nat = Some "db:reset" ->
  eng_down (Some ToZero) (engine w) = (evs, Rejected e, s1) ->
  (main argv w).1 = 1%Z
  /\ trace (main argv w).2 = trace w ++ [CallDown (Some ToZero)]
  /\ engine (main argv w).2 = s1.
Proof.
  intros Hv Hdown. rewrite (main_reset _ _ Hv).
  unfold mbind, M_bind, bind.
  rewrite (undo_run _ (constructed w) evs _ s1 Hdown). repeat split.
Qed.

(** C7: [db:reset] makes exactly two calls on the engine, in this order:
    [down] with [{ to: 0 }], then [up] with no options; [up] starts from
    the engine state that the completed revert left, and everything the
    revert printed precedes everything the apply prints. *)
Theorem reset_reverts_all_then_applies_all
    (argv : list string) (w : World S) evs ms s1 :
  argv !! 2%nat = Some "db:reset" ->
  eng_down (Some ToZero) (engine w) = (evs, Resolved ms, s1) ->
  trace (main argv w).2 = trace w ++ [CallDown (Some ToZero); CallUp None]
  /\ engine (main argv w).2 = (eng_up None s1).2
  /\ exists rest,
       stdout (main argv w).2 =
       stdout w ++ event_lines (listeners w) evs ++ [reverted_line (length ms)]
       ++ event_lines (listeners w) (eng_up None s1).1.1 ++ rest.
Proof.
  intros Hv Hdown. rewrite (main_reset _ _ Hv).
  unfold mbind, M_bind, bind.
  rewrite (undo_run _ (constructed w) evs _ s1 Hdown). cbv zeta.
  destruct (eng_up None s1) as [[evs' r'] s2] eqn:Hup.
  match goal with
  | |- context [migrate None ?w1] =>
      rewrite (migrate_run None w1 evs' r' s2 Hup)
  end.
  split; [|split].
  - destruct r'; cbn; rewrite <- app_assoc; reflexivity.
  - destruct r'; reflexivity.
  - destruct r' as [ms'|e]; cbn; rewrite !emitted_constructed.
    + exists [executed_line (length ms')]. rewrite <- !app_assoc. reflexivity.
    + exists ["Error: " +:+ message e]. rewrite <- !app_assoc. reflexivity.
Qed.

(** C2: [db:migrate:check] makes one call on the engine, [pending], and
    none that applies or reverts a migration; the files are left alone;
    when [pending] resolves, the exit code is 1 for a non-empty pending
    set and 0 for an empty one. *)
Theorem check_exits_1_iff_pending
    (argv : list string) (w : World S) r s' :
  argv !! 2%nat = Some "db:migrate:check" ->
  eng_pending (engine w) = (r, s') ->
  trace (main argv w).2 = trace w ++ [CallPending]
  /\ engine (main argv w).2 = s'
  /\ files (main argv w).2 = files w
  /\ forall ms, r = Resolved ms ->
       (ms <> [] -> (main argv w).1 = 1%Z) /\ (ms = [] -> (main argv w).1 = 0%Z).
Proof.
  intros Hv Hp. rewrite (main_check _ _ Hv).
  unfold checkMigrations, umzug_pending, mbind, M_bind, bind.
  change (engine (constructed w)) with (engine w).
  rewrite Hp. split; [|split; [|split]].
  - destruct r as [[|m ms]|e]; reflexivity.
  - destruct r as [[|m ms]|e]; reflexivity.
  - destruct r as [[|m ms]|e]; reflexivity.
  - intros ms ->. destruct ms; cbn; split; done.
Qed.

(** C3: whatever error the handling of a verb throws, the script prints
    'Error: ' followed by its message on standard output and exits with
    code 1; this is so for the error raised when [migration:generate] has
    no name, and for a rejection of the engine's [up] or [down], which the
    verb's handler lets through. *)
Theorem thrown_errors_are_printed_and_exit_1 (argv : list string) (w : World S) :
  (forall e w',
     runTask (task_of argv) (options_of argv) (constructed w) = (Throw e, w') ->
     main argv w = (1%Z, set_stdout (stdout w' ++ ["Error: " +:+ message e]) w'))
  /\ (argv !! 2%nat = Some "migration:generate" ->
       argv !! 3%nat = None \/ argv !! 3%nat = Some "" ->
       main argv w =
       (1%Z, set_stdout (stdout w ++ ["Error: Migration name should be specified."])
                        (constructed w)))
  /\ (forall evs e s',
       argv !! 2%nat = Some "db:migrate" ->
       eng_up (ToId <$> argv !! 3%nat) (engine w) = (evs, Rejected e, s') ->
       (main argv w).1 = 1%Z
       /\ stdout (main argv w).2 =
          stdout w ++ event_lines (listeners w) evs ++ ["Error: " +:+ message e])
  /\ (forall evs e s',
       argv !! 2%nat = Some "db:migrate:undo" ->
       eng_down (ToId <$> argv !! 3%nat) (engine w) = (evs, Rejected e, s') ->
       (main argv w).1 = 1%Z
       /\ stdout (main argv w).2 =
          stdout w ++ event_lines (listeners w) evs ++ ["Error: " +:+ message e]).
Proof.
  split; [|split; [|split]].
  - intros e w' Hrun. rewrite main_runs, Hrun. reflexivity.
  - intros Hv Hn. rewrite main_runs. unfold options_of, task_of. rewrite Hv.
    destruct Hn as [-> | ->]; reflexivity.
  - intros evs e s' Hv Hup. rewrite (main_migrate _ _ Hv).
    rewrite (migrate_run _ (constructed w) evs _ s' Hup). cbn.
    rewrite emitted_constructed, <- app_assoc. done.
  - intros evs e s' Hv Hdown. rewrite (main_undo _ _ Hv).
    rewrite (undo_run _ (constructed w) evs _ s' Hdown). cbn.
    rewrite emitted_constructed, <- app_assoc. done.
Qed.

Lemma runTask_unknown (verb : string) (o : options) (w : World S) :
  verb <> "" -> verb ∉ dispatch_table ->
  runTask (Some verb) o w = (Throw (Error "Task not found."), w).
Proof.
  intros Hne Hnot. unfold runTask, Js.strictEq.
  repeat match goal with
  | |- context [String.eqb verb ?lit] =>
      destruct (String.eqb_spec verb lit) as [->|_];
      [exfalso; apply Hnot; unfold dispatch_table; set_solver |]
  end.
  unfold Js.truthy. destruct (String.eqb_spec verb "") as [->|_]; [done|].
  reflexivity.
Qed.

(** C8, as the code has it: with no verb, or with the empty string as
    verb, the script prints the usage help and exits with code 0; with a
    non-empty verb that is not in the dispatch table it prints
    'Error: Task not found.' and exits with code 1; in both cases it makes
    no call on the engine and changes neither its state nor the files. *)
Theorem help_or_task_not_found (argv : list string) (w : World S) :
  (argv !! 2%nat = None \/ argv !! 2%nat = Some "" ->
     (main argv w).1 = 0%Z
     /\ stdout (main argv w).2 = stdout w ++ [help]
     /\ untouched w (main argv w).2)
  /\ (forall verb,
       argv !! 2%nat = Some verb -> verb <> "" -> verb ∉ dispatch_table ->
       (main argv w).1 = 1%Z
       /\ stdout (main argv w).2 = stdout w ++ ["Error: Task not found."]
       /\ untouched w (main argv w).2).
Proof.
  split.
  - intros Hv. rewrite main_runs. unfold options_of, task_of.
    destruct Hv as [-> | ->]; repeat split.
  - intros verb Hv Hne Hnot. rewrite main_runs. unfold task_of. rewrite Hv.
    rewrite (runTask_unknown _ _ _ Hne Hnot). repeat split.
Qed.

End Verbs.

(** ** Strings *)

Lemma append_nil (b : string) : "" +:+ b = b.
Proof. reflexivity. Qed.

Lemma append_cons (x : ascii) (a b : string) :
  String x a +:+ b = String x (a +:+ b).
Proof. reflexivity. Qed.

Lemma length_append (a b : string) :
  String.length (a +:+ b) = (String.length a + String.length b)%nat.
Proof.
  induction a as [|c a IH]; [reflexivity |].
  rewrite append_cons. simpl. now rewrite IH.
Qed.

Lemma append_assoc (a b c : string) : (a +:+ b) +:+ c = a +:+ (b +:+ c).
Proof.
  induction a as [|x a IH]; [reflexivity |].
  rewrite !append_cons. now rewrite IH.
Qed.

Lemma prefix_append (pat b : string) : String.prefix pat (pat +:+ b) = true.
Proof.
  induction pat as [|c pat IH]; [now destruct b |].
  rewrite append_cons. simpl.
  destruct (Ascii.ascii_dec c c); [exact IH | congruence].
Qed.

Lemma prefix_skip (pat s : string) :
  String.prefix pat s = true -> s = pat +:+ Js.skip (String.length pat) s.
Proof.
  revert s. induction pat as [|c pat IH]; intros s Hp.
  - now destruct s.
  - destruct s as [|d s]; simpl in Hp; [discriminate |].
    destruct (Ascii.ascii_dec c d) as [->|]; [|discriminate].
    rewrite append_cons. simpl. f_equal. now apply IH.
Qed.

Lemma replace_unfold (pat rep s : string) :
  Js.replace pat rep s =
  if String.prefix pat s then rep +:+ Js.skip (String.length pat) s
  else match s with
       | "" => ""
       | String c r => String c (Js.replace pat rep r)
       end.
Proof. destruct s; reflexivity. Qed.

(** [replace] with an empty replacement removes the earliest occurrence of
    the pattern and nothing else. *)
Lemma replace_removes_first (pat s : string) :
  first_removed pat s (Js.replace pat "" s).
Proof.
  induction s as [|c s IH].
  - rewrite replace_unfold. destruct (String.prefix pat "") eqn:Hp.
    + left. exists "", (Js.skip (String.length pat) "").
      split; [now apply prefix_skip | split; [reflexivity | intros; simpl; lia]].
    + right. split; [|reflexivity]. intros a b Hs.
      destruct a; [|discriminate]. rewrite append_nil in Hs.
      rewrite Hs, prefix_append in Hp. discriminate.
  - rewrite replace_unfold. destruct (String.prefix pat (String c s)) eqn:Hp.
    + left. exists "", (Js.skip (String.length pat) (String c s)).
      split; [now apply prefix_skip | split; [reflexivity | intros; simpl; lia]].
    + assert (Hhead : forall b, String c s <> pat +:+ b).
      { intros b Hs. rewrite Hs, prefix_append in Hp. discriminate. }
      destruct IH as [(a & b & Hs & Hr & Hmin) | [Hnone Hr]].
      * left. exists (String c a), b. rewrite !append_cons.
        split; [now rewrite <- Hs |]. split; [now rewrite Hr |].
        intros [|c' a'] b' Hs'; [now apply Hhead in Hs' |].
        rewrite append_cons in Hs'. injection Hs' as _ Hs'.
        simpl. apply le_n_S. eauto.
      * right. split; [|now rewrite Hr].
        intros [|c' a'] b' Hs'; [now apply Hhead in Hs' |].
        rewrite append_cons in Hs'. injection Hs' as _ Hs'.
        now apply Hnone in Hs'.
Qed.





(** ** Paths *)

Lemma string_prefix_cons (a b : ascii) (s1 s2 : string) :
  String.prefix (String a s1) (String b s2) =
  if Ascii.ascii_dec a b then String.prefix s1 s2 else false.
Proof. reflexivity. Qed.










(** Resolution normalises: at the root no segment is empty, and ['..']
    takes the segment before it away. *)
Lemma path_resolve_normalises :
  path_resolve "/" "migrations" "migration.sample.js"
  = "/migrations/migration.sample.js"
  /\ path_resolve "/app" "migrations" "20230101120000-a/../b.js"
     = "/app/migrations/b.js"
  /\ path_resolve "/app/" "migrations" "" = "/app/migrations".
Proof. repeat split. Qed.


(** ** Timestamps *)

Lemma format_fixed_width (n : Z) : (0 <= n <= 99)%Z -> _format n = fixed_width 2 n.
Proof.
  intros Hn.
  assert (Hall : forallb (fun k => String.eqb (_format (Z.of_nat k))
                                              (fixed_width 2 (Z.of_nat k)))
                         (seq 0 100) = true) by (vm_compute; reflexivity).
  rewrite forallb_forall in Hall. specialize (Hall (Z.to_nat n)).
  rewrite Z2Nat.id in Hall by lia.
  apply String.eqb_eq, Hall, in_seq. lia.
Qed.

Lemma year_fixed_width (y : Z) :
  (1000 <= y <= 9999)%Z -> Js.toString y = fixed_width 4 y.
Proof.
  intros Hy.
  assert (Hall : forallb (fun k => String.eqb (Js.toString (1000 + Z.of_nat k))
                                              (fixed_width 4 (1000 + Z.of_nat k)))
                         (seq 0 (90 * 100)) = true) by (vm_compute; reflexivity).
  rewrite forallb_forall in Hall. specialize (Hall (Z.to_nat (y - 1000))).
  replace (1000 + Z.of_nat (Z.to_nat (y - 1000)))%Z with y in Hall by lia.
  apply String.eqb_eq, Hall, in_seq. lia.
Qed.

Lemma fixed_width_step (k : nat) (n : Z) :
  fixed_width (Datatypes.S k) n =
  fixed_width k (n / 10) +:+ String (ascii_of_nat (48 + Z.to_nat (n mod 10))) "".
Proof. reflexivity. Qed.

Lemma fixed_width_length (k : nat) (n : Z) : String.length (fixed_width k n) = k.
Proof.
  revert n. induction k as [|k IH]; intros n; [reflexivity |].
  rewrite fixed_width_step, length_append, IH. simpl. lia.
Qed.

Lemma digits_only_append (a b : string) :
  digits_only (a +:+ b) = digits_only a && digits_only b.
Proof.
  induction a as [|c a IH]; [reflexivity |].
  rewrite append_cons. simpl. rewrite IH. now rewrite andb_assoc.
Qed.

Lemma digit_is_digit (m : nat) :
  (m < 10)%nat -> digits_only (String (ascii_of_nat (48 + m)) "") = true.
Proof.
  intros Hm. do 10 (destruct m as [|m]; [reflexivity |]). lia.
Qed.

Lemma fixed_width_digits (k : nat) (n : Z) : digits_only (fixed_width k n) = true.
Proof.
  revert n. induction k as [|k IH]; intros n; [reflexivity |].
  rewrite fixed_width_step, digits_only_append, IH.
  apply digit_is_digit.
  pose proof (Z.mod_pos_bound n 10 ltac:(lia)). lia.
Qed.

(** For a four-digit year the generated timestamp is [YYYYMMDDHHMMSS]. *)
Lemma timestamp_format (d : UTCDate) :
  in_range d -> (1000 <= utcFullYear d <= 9999)%Z ->
  timestamp_of d = YYYYMMDDHHMMSS d.
Proof.
  intros (Hmo & Hda & Hho & Hmi & Hse) Hy.
  unfold timestamp_of, YYYYMMDDHHMMSS, Js.join.
  rewrite (year_fixed_width _ Hy), !format_fixed_width by lia.
  rewrite !append_nil. reflexivity.
Qed.

Lemma YYYYMMDDHHMMSS_shape (d : UTCDate) :
  String.length (YYYYMMDDHHMMSS d) = 14%nat /\ digits_only (YYYYMMDDHHMMSS d) = true.
Proof.
  unfold YYYYMMDDHHMMSS. split.
  - rewrite !length_append, !fixed_width_length. reflexivity.
  - rewrite !digits_only_append, !fixed_width_digits. reflexivity.
Qed.

(** ** Listings, generated files and the command line *)

Section Files.

Context {S : Type} `{Engine S}.

Lemma printMigration_run (m : migration) (i : Z) (w : World S) :
  has_file m ->
  _printMigration m (Some i) w =
  (Return tt,
   set_stdout (stdout w ++ ["  " +:+ Js.toString i +:+ ") "
                            +:+ Js.replace ".js" "" (file_of m)]) w).
Proof.
  intros Hm.
  assert (Hline : forall a, "  " +:+ (Js.toString i +:+ ")") +:+ " " +:+ a
                            = "  " +:+ Js.toString i +:+ ") " +:+ a).
  { intros a. f_equal. now rewrite append_assoc. }
  unfold _printMigration, fileName_of, mbind, M_bind, bind.
  destruct m as [file|name].
  - simpl in Hm. unfold Js.truthy.
    destruct (String.eqb_spec file "") as [->|_]; [done |].
    cbn [negb mret M_ret ret]. unfold console_log. now rewrite Hline.
  - cbn [mret M_ret ret]. unfold console_log. now rewrite Hline.
Qed.

Lemma printMigrations_from (ms : list migration) (i : nat) (w : World S) :
  Forall has_file ms ->
  forEach (fun migration index =>
             _printMigration migration (Some (Z.of_nat index + 1)%Z)) i ms w =
  (Return tt,
   set_stdout (stdout w ++ imap (fun j m => listing_line (i + j) m) ms) w).
Proof.
  intros Hms. revert i w.
  induction Hms as [|m ms Hm _ IH]; intros i w.
  - simpl. rewrite app_nil_r. now destruct w.
  - simpl forEach. unfold mbind, M_bind, bind.
    rewrite (printMigration_run _ _ _ Hm), IH. f_equal.
    rewrite imap_cons. cbn [stdout set_stdout].
    rewrite <- app_assoc. unfold set_stdout; simpl. do 2 f_equal.
    simpl. f_equal.
    + unfold listing_line. now rewrite Nat.add_0_r.
    + apply imap_ext. intros j x _. simpl. f_equal. lia.
Qed.

Lemma printMigrations_run (ms : list migration) (w : World S) :
  Forall has_file ms ->
  _printMigrations ms w =
  (Return tt, set_stdout (stdout w ++ imap listing_line ms) w).
Proof. intros Hms. unfold _printMigrations. now rewrite printMigrations_from. Qed.

(** C10: each line of the listing printed by [db:migrate:status] and by
    [db:migrate:history] is the 1-based position of the migration, a
    closing parenthesis, and the migration's file name with the first
    occurrence of '.js' removed and nothing else: 'a.js.old.js' is listed
    as 'a.old.js'. *)
Theorem listing_drops_first_js_only
    (argv : list string) (w : World S) (ms : list migration) (s' : S) :
  ms <> [] -> Forall has_file ms ->
  (argv !! 2%nat = Some "db:migrate:status" ->
   eng_pending (engine w) = (Resolved ms, s') ->
   stdout (main argv w).2 =
   stdout w ++ "Pending migrations:"
     :: imap (fun i m => "  " +:+ Js.toString (Z.of_nat i + 1) +:+ ") "
                         +:+ Js.replace ".js" "" (file_of m)) ms)
  /\ (argv !! 2%nat = Some "db:migrate:history" ->
      eng_executed (engine w) = (Resolved ms, s') ->
      stdout (main argv w).2 =
      stdout w ++ "Executed migrations:"
        :: imap (fun i m => "  " +:+ Js.toString (Z.of_nat i + 1) +:+ ") "
                            +:+ Js.replace ".js" "" (file_of m)) ms)
  /\ (forall m, m ∈ ms ->
        first_removed ".js" (file_of m) (Js.replace ".js" "" (file_of m)))
  /\ Js.replace ".js" "" "a.js.old.js" = "a.old.js".
Proof.
  intros Hne Hms. split; [|split; [|split]].
  - intros Hv Hp. rewrite (main_status _ _ Hv).
    unfold printPending, umzug_pending, mbind, M_bind, bind.
    change (engine (constructed w)) with (engine w). rewrite Hp.
    destruct ms as [|m ms]; [done |]. cbn [settle ret throw length Nat.ltb Nat.leb].
    unfold console_log. rewrite (printMigrations_run _ _ Hms).
    cbn. rewrite <- app_assoc. reflexivity.
  - intros Hv Hp. rewrite (main_history _ _ Hv).
    unfold printExecuted, umzug_storage_executed, mbind, M_bind, bind.
    change (engine (constructed w)) with (engine w). rewrite Hp.
    destruct ms as [|m ms]; [done |]. cbn [settle ret throw length Nat.ltb Nat.leb].
    unfold console_log. rewrite (printMigrations_run _ _ Hms).
    cbn. rewrite <- app_assoc. reflexivity.
  - intros m _. apply replace_removes_first.
  - reflexivity.
Qed.



Lemma options_of_other (argv : list string) (verb : string) :
  argv !! 2%nat = Some verb ->
  verb ∉ ["db:migrate"; "db:migrate:undo"; "migration:generate"] ->
  options_of argv = {| migrateTo := None; undoTo := None; migrationName := None |}.
Proof.
  intros Hv Hnot. unfold options_of, task_of, Js.strictEq. rewrite Hv.
  repeat match goal with
  | |- context [String.eqb verb ?lit] =>
      destruct (String.eqb_spec verb lit) as [->|_];
      [exfalso; apply Hnot; set_solver |]
  end.
  reflexivity.
Qed.

(** C6: a command line is the script path followed by the arguments, and
    Node hands it to the script behind the interpreter path, as
    [process.argv = interpreter :: argv].  The verb the CLI takes is
    [argv[1]] and the optional positional argument is [argv[2]]: a run
    depends on the command line through these two positions only; the
    argument is the target id of [db:migrate] and of [db:migrate:undo] and
    the name of [migration:generate]; every other verb ignores it. *)
Theorem verb_is_argv_1_argument_is_argv_2
    (interpreter : string) (argv : list string) (w : World S) :
  task_of (interpreter :: argv) = argv !! 1%nat
  /\ (forall interpreter' argv',
       argv' !! 1%nat = argv !! 1%nat -> argv' !! 2%nat = argv !! 2%nat ->
       main (interpreter' :: argv') w = main (interpreter :: argv) w)
  /\ (argv !! 1%nat = Some "db:migrate" ->
       main (interpreter :: argv) w
       = finish (migrate (ToId <$> argv !! 2%nat) (constructed w)))
  /\ (argv !! 1%nat = Some "db:migrate:undo" ->
       main (interpreter :: argv) w
       = finish (undo (ToId <$> argv !! 2%nat) (constructed w)))
  /\ (forall name,
       argv !! 1%nat = Some "migration:generate" ->
       argv !! 2%nat = Some name -> name <> "" ->
       main (interpreter :: argv) w = finish (generate name (constructed w)))
  /\ (forall verb,
       argv !! 1%nat = Some verb ->
       verb ∉ ["db:migrate"; "db:migrate:undo"; "migration:generate"] ->
       main (interpreter :: argv) w = main (interpreter :: take 2 argv) w).
Proof.
  split; [reflexivity | split; [|split; [|split; [|split]]]].
  - intros interpreter' argv' H1 H2. rewrite !main_runs.
    assert (E2 : (interpreter' :: argv') !! 2%nat = (interpreter :: argv) !! 2%nat)
      by exact H1.
    assert (E3 : (interpreter' :: argv') !! 3%nat = (interpreter :: argv) !! 3%nat)
      by exact H2.
    unfold options_of, task_of. now rewrite E2, E3.
  - intros Hv. now apply main_migrate.
  - intros Hv. now apply main_undo.
  - intros name Hv Hn. now apply main_generate.
  - intros verb Hv Hnot. rewrite !main_runs.
    assert (Hv' : (interpreter :: take 2 argv) !! 2%nat = Some verb).
    { change ((interpreter :: take 2 argv) !! 2%nat) with (take 2 argv !! 1%nat).
      rewrite lookup_take_lt by lia. exact Hv. }
    assert (Hv2 : (interpreter :: argv) !! 2%nat = Some verb) by exact Hv.
    rewrite (options_of_other _ _ Hv2 Hnot), (options_of_other _ _ Hv' Hnot).
    unfold task_of. now rewrite Hv2, Hv'.
Qed.

End Files.

(** ** The statements on a sample project *)

Import SpecEngine.


(** C8 as stated fails: the empty string is a verb that is not in the
    dispatch table, and the run prints the help and exits with code 0. *)
Lemma empty_verb_prints_help_and_exits_0 :
  let argv := ["node"; "cli.js"; ""] in
  argv !! 2%nat = Some ""
  /\ ("" ∉ dispatch_table)
  /\ (main argv sample_world).1 = 0%Z
  /\ stdout (main argv sample_world).2 = [help].
Proof.
  repeat split; try (vm_compute; reflexivity).
  rewrite list_elem_of_In. simpl. intuition discriminate.
Qed.

(** [db:migrate] up to the second unit of the sample project. *)
Lemma migrate_calls_up_and_prints_count_witness :
  let argv := ["node"; "cli.js"; "db:migrate"; "20220202000000-b.js.old.js"] in
  trace (main argv sample_world).2
  = [CallUp (Some (ToId "20220202000000-b.js.old.js"))]
  /\ (main argv sample_world).1 = 0%Z
  /\ stdout (main argv sample_world).2
     = [ "== 20220202000000-b.js.old.js: migrating ==";
         "== 20220202000000-b.js.old.js: migrated ==" +:+ Js.nl;
         "Executed 1 migrations." ].
Proof.
  intros argv.
  pose (res := up (Some (ToId "20220202000000-b.js.old.js")) sample_state).
  destruct (migrate_calls_up_and_prints_count (H := spec_engine) argv sample_world
              res.1.1 res.1.2 res.2 eq_refl eq_refl) as (Hid & _ & _ & Hout).
  destruct (Hout [MigrationObj "20220202000000-b.js.old.js"] eq_refl)
    as [Hcode Hstd].
  split; [exact (Hid _ eq_refl) | split; [exact Hcode | exact Hstd]].
Defined.

(** The two undo verbs on the sample project, whose first unit has run. *)
Lemma undo_calls_down_witness :
  (trace (main ["node"; "cli.js"; "db:migrate:undo"; "20220101000000-a.js"]
               sample_world).2
   = [CallDown (Some (ToId "20220101000000-a.js"))]
   /\ logged (engine (main ["node"; "cli.js"; "db:migrate:undo";
                             "20220101000000-a.js"] sample_world).2) = [])
  /\ (trace (main ["node"; "cli.js"; "db:migrate:undo"] sample_world).2
      = [CallDown None]
      /\ logged (engine (main ["node"; "cli.js"; "db:migrate:undo"]
                              sample_world).2) = [])
  /\ (trace (main ["node"; "cli.js"; "db:migrate:undo:all"; "ignored"]
                  sample_world).2
      = [CallDown (Some ToZero)]
      /\ logged (engine (main ["node"; "cli.js"; "db:migrate:undo:all"; "ignored"]
                              sample_world).2) = []).
Proof.
  split; [|split].
  - destruct (proj1 (proj1 (undo_calls_down (H := spec_engine)
                ["node"; "cli.js"; "db:migrate:undo"; "20220101000000-a.js"]
                sample_world) eq_refl)
                "20220101000000-a.js" eq_refl) as [Ht He].
    split; [exact Ht | rewrite He; reflexivity].
  - destruct (proj2 (proj1 (undo_calls_down (H := spec_engine)
                ["node"; "cli.js"; "db:migrate:undo"] sample_world) eq_refl)
                eq_refl) as [Ht He].
    split; [exact Ht | rewrite He; reflexivity].
  - destruct (proj1 (proj2 (undo_calls_down (H := spec_engine)
                ["node"; "cli.js"; "db:migrate:undo:all"; "ignored"]
                sample_world)) eq_refl) as [Ht He].
    split; [exact Ht | rewrite He; reflexivity].
Defined.

(** [db:reset] on the sample project leaves all three units logged. *)
Lemma reset_reverts_all_then_applies_all_witness :
  let argv := ["node"; "cli.js"; "db:reset"] in
  trace (main argv sample_world).2 = [CallDown (Some ToZero); CallUp None]
  /\ logged (engine (main argv sample_world).2)
     = [ "20220101000000-a.js"; "20220202000000-b.js.old.js";
         "20220303000000-c.js" ].
Proof.
  intros argv.
  pose (res := down (Some ToZero) sample_state).
  destruct (reset_reverts_all_then_applies_all (H := spec_engine) argv sample_world
              res.1.1 [MigrationObj "20220101000000-a.js"] res.2
              eq_refl eq_refl) as (Htrace & Hengine & _).
  split; [exact Htrace |]. rewrite Hengine. reflexivity.
Defined.

(** [db:migrate:check] with two pending units, and with none. *)
Lemma check_exits_1_iff_pending_witness :
  let argv := ["node"; "cli.js"; "db:migrate:check"] in
  (main argv sample_world).1 = 1%Z
  /\ trace (main argv sample_world).2 = [CallPending]
  /\ (main argv (set_engine {| units := ["20220101000000-a.js"];
                                logged := ["20220101000000-a.js"] |}
                            CallPending sample_world)).1 = 0%Z.
Proof.
  intros argv.
  destruct (check_exits_1_iff_pending (H := spec_engine) argv sample_world
              (pending sample_state).1 (pending sample_state).2 eq_refl eq_refl)
    as (Htrace & _ & _ & Hcode).
  split; [|split; [exact Htrace |]].
  - apply (Hcode [ MigrationObj "20220202000000-b.js.old.js";
                   MigrationObj "20220303000000-c.js" ] eq_refl).
    discriminate.
  - match goal with
    | |- (main argv ?w0).1 = _ =>
        exact (proj2 (proj2 (proj2 (proj2
                 (check_exits_1_iff_pending (H := spec_engine) argv w0 (Resolved []) (engine w0)
                    eq_refl eq_refl))) [] eq_refl) eq_refl)
    end.
Defined.

(** A missing name, and a target the engine does not know. *)
Lemma thrown_errors_are_printed_and_exit_1_witness :
  main ["node"; "cli.js"; "migration:generate"] sample_world
  = (1%Z, set_stdout ["Error: Migration name should be specified."]
                     (constructed sample_world))
  /\ main ["node"; "cli.js"; "db:migrate"; "missing"] sample_world
     = (1%Z, set_stdout ["Error: Unable to find migration"]
                        (set_engine sample_state (CallUp (Some (ToId "missing")))
                                    (constructed sample_world))).
Proof.
  split.
  - exact (proj1 (proj2 (thrown_errors_are_printed_and_exit_1 (H := spec_engine)
                           ["node"; "cli.js"; "migration:generate"] sample_world))
             eq_refl (or_introl eq_refl)).
  - exact (proj1 (thrown_errors_are_printed_and_exit_1 (H := spec_engine)
                    ["node"; "cli.js"; "db:migrate"; "missing"] sample_world)
             not_found
             (set_engine sample_state (CallUp (Some (ToId "missing")))
                         (constructed sample_world))
             eq_refl).
Defined.

(** No verb at all, and a verb the command line does not have. *)
Lemma help_or_task_not_found_witness :
  ((main ["node"; "cli.js"] sample_world).1 = 0%Z
   /\ stdout (main ["node"; "cli.js"] sample_world).2 = [help])
  /\ ((main ["node"; "cli.js"; "db:rollback"] sample_world).1 = 1%Z
      /\ stdout (main ["node"; "cli.js"; "db:rollback"] sample_world).2
         = ["Error: Task not found."]
      /\ untouched sample_world (main ["node"; "cli.js"; "db:rollback"] sample_world).2).
Proof.
  split.
  - destruct (proj1 (help_or_task_not_found (H := spec_engine) ["node"; "cli.js"] sample_world)
                (or_introl eq_refl)) as (Hcode & Hout & _).
    split; [exact Hcode | exact Hout].
  - apply (proj2 (help_or_task_not_found (H := spec_engine)
                    ["node"; "cli.js"; "db:rollback"] sample_world)
             "db:rollback" eq_refl).
    + discriminate.
    + rewrite list_elem_of_In. simpl. intuition discriminate.
Defined.

(** The two listings of the sample project. *)
Lemma listing_drops_first_js_only_witness :
  stdout (main ["node"; "cli.js"; "db:migrate:status"] sample_world).2
  = [ "Pending migrations:"; "  1) 20220202000000-b.old.js";
      "  2) 20220303000000-c" ]
  /\ stdout (main ["node"; "cli.js"; "db:migrate:history"] sample_world).2
     = [ "Executed migrations:"; "  1) 20220101000000-a" ].
Proof.
  split.
  - refine (proj1 (listing_drops_first_js_only (H := spec_engine)
                     ["node"; "cli.js"; "db:migrate:status"] sample_world
                     [ MigrationObj "20220202000000-b.js.old.js";
                       MigrationObj "20220303000000-c.js" ]
                     sample_state _ _) eq_refl eq_refl).
    + discriminate.
    + repeat constructor; discriminate.
  - refine (proj1 (proj2 (listing_drops_first_js_only (H := spec_engine)
                     ["node"; "cli.js"; "db:migrate:history"] sample_world
                     [ MigrationName "20220101000000-a.js" ]
                     sample_state _ _)) eq_refl eq_refl).
    + discriminate.
    + repeat constructor.
Defined.


(** Another interpreter and script path, and a stray argument. *)
Lemma verb_is_argv_1_argument_is_argv_2_witness :
  main ["/usr/bin/node"; "/app/cli.js"; "db:migrate"; "20220303000000-c.js"]
       sample_world
  = main ["node"; "cli.js"; "db:migrate"; "20220303000000-c.js"] sample_world
  /\ main ["node"; "cli.js"; "db:migrate"; "20220303000000-c.js"] sample_world
     = finish (migrate (Some (ToId "20220303000000-c.js")) (constructed sample_world))
  /\ main ["node"; "cli.js"; "db:reset"; "ignored"] sample_world
     = main ["node"; "cli.js"; "db:reset"] sample_world.
Proof.
  split; [|split].
  - exact (proj1 (proj2 (verb_is_argv_1_argument_is_argv_2 (H := spec_engine)
                    "node" ["cli.js"; "db:migrate"; "20220303000000-c.js"]
                    sample_world))
             "/usr/bin/node"
             ["/app/cli.js"; "db:migrate"; "20220303000000-c.js"]
             eq_refl eq_refl).
  - exact (proj1 (proj2 (proj2 (verb_is_argv_1_argument_is_argv_2
                    (H := spec_engine)
                    "node" ["cli.js"; "db:migrate"; "20220303000000-c.js"]
                    sample_world))) eq_refl).
  - refine (proj2 (proj2 (proj2 (proj2 (proj2
              (verb_is_argv_1_argument_is_argv_2 (H := spec_engine)
                 "node" ["cli.js"; "db:reset"; "ignored"] sample_world)))))
              "db:reset" eq_refl _).
    rewrite list_elem_of_In. simpl. intuition discriminate.
Defined.

(** ** What the verbs leave alone *)

Section Frames.

Context {S : Type} `{Engine S}.

Lemma engine_kept_trans (a b c : World S) :
  engine_kept a b -> engine_kept b c -> engine_kept a c.
Proof. unfold engine_kept. intros [? ?] [? ?]. split; congruence. Qed.

Lemma keeps_bind {A B} (R : World S -> World S -> Prop)
    (m : M S A) (k : A -> M S B) :
  (forall a b c, R a b -> R b c -> R a c) ->
  keeps R m -> (forall a, keeps R (k a)) -> keeps R (m ≫= k).
Proof.
  intros Htrans Hm Hk w. unfold mbind, M_bind, bind.
  specialize (Hm w). destruct (m w) as [[a|e|c] w']; simpl in *; try exact Hm.
  eapply Htrans; [exact Hm | apply Hk].
Qed.

Lemma exits_bind {A B} (m : M S A) (k : A -> M S B) :
  exits_0_or_1 m -> (forall a, exits_0_or_1 (k a)) -> exits_0_or_1 (m ≫= k).
Proof.
  intros Hm Hk w code. unfold mbind, M_bind, bind.
  specialize (Hm w). destruct (m w) as [[a|e|c] w']; simpl in *.
  - apply Hk.
  - discriminate.
  - intros [= <-]. now apply Hm.
Qed.

Lemma console_log_engine line : keeps engine_kept (console_log (S := S) line).
Proof. intros w. split; reflexivity. Qed.

Lemma console_log_exits line : exits_0_or_1 (console_log (S := S) line).
Proof. intros w code. discriminate. Qed.

Lemma umzug_pending_exits : exits_0_or_1 umzug_pending.
Proof.
  intros w code. unfold umzug_pending.
  destruct (eng_pending (engine w)) as [[ms|e] s']; discriminate.
Qed.

Lemma umzug_storage_executed_exits : exits_0_or_1 umzug_storage_executed.
Proof.
  intros w code. unfold umzug_storage_executed.
  destruct (eng_executed (engine w)) as [[ms|e] s']; discriminate.
Qed.

Lemma umzug_up_exits to : exits_0_or_1 (umzug_up to).
Proof.
  intros w code. unfold umzug_up.
  destruct (eng_up to (engine w)) as [[evs [ms|e]] s']; discriminate.
Qed.

Lemma umzug_down_exits to : exits_0_or_1 (umzug_down to).
Proof.
  intros w code. unfold umzug_down.
  destruct (eng_down to (engine w)) as [[evs [ms|e]] s']; discriminate.
Qed.

Lemma pipe_engine dir source target : keeps engine_kept (pipe (S := S) dir source target).
Proof.
  intros w. unfold pipe.
  destruct (faults w _ _) as [[e [content|]]|]; [split; reflexivity.. |].
  destruct (files w !! _); split; reflexivity.
Qed.

Lemma pipe_exits dir source target : exits_0_or_1 (pipe (S := S) dir source target).
Proof.
  intros w code. unfold pipe.
  destruct (faults w _ _) as [[e [content|]]|]; [discriminate.. |].
  destruct (files w !! _); discriminate.
Qed.

Lemma fileName_of_keeps R m :
  (forall w : World S, R w w) -> keeps R (fileName_of m).
Proof.
  intros Hrefl w. unfold fileName_of.
  destruct m as [file|name]; [destruct (Js.truthy (Some file))|]; apply Hrefl.
Qed.

Lemma fileName_of_exits m : exits_0_or_1 (fileName_of (S := S) m).
Proof.
  intros w code. unfold fileName_of.
  destruct m as [file|name]; [destruct (Js.truthy (Some file))|]; discriminate.
Qed.

Lemma printMigration_engine m i :
  keeps engine_kept (_printMigration (S := S) m i).
Proof.
  apply keeps_bind; [apply engine_kept_trans | |intros a; apply console_log_engine].
  apply fileName_of_keeps. split; reflexivity.
Qed.

Lemma printMigration_exits m i :
  exits_0_or_1 (_printMigration (S := S) m i).
Proof.
  apply exits_bind; [apply fileName_of_exits | intros a; apply console_log_exits].
Qed.

Lemma forEach_keeps {A} R (f : A -> nat -> M S unit) i l :
  (forall w : World S, R w w) -> (forall a b c, R a b -> R b c -> R a c) ->
  (forall x j, keeps R (f x j)) -> keeps R (forEach f i l).
Proof.
  intros Hrefl Htrans Hf. revert i.
  induction l as [|x l IH]; intros i; [intros w; apply Hrefl |].
  simpl. apply keeps_bind; auto.
Qed.

Lemma forEach_exits {A} (f : A -> nat -> M S unit) i l :
  (forall x j, exits_0_or_1 (f x j)) -> exits_0_or_1 (forEach f i l).
Proof.
  intros Hf. revert i.
  induction l as [|x l IH]; intros i; [intros w code; discriminate |].
  simpl. apply exits_bind; auto.
Qed.

Lemma printMigrations_engine ms :
  keeps engine_kept (_printMigrations (S := S) ms).
Proof.
  apply forEach_keeps;
    [split; reflexivity | apply engine_kept_trans
     | intros; apply printMigration_engine].
Qed.

Lemma printMigrations_exits ms :
  exits_0_or_1 (_printMigrations (S := S) ms).
Proof. apply forEach_exits. intros. apply printMigration_exits. Qed.

End Frames.

Section Conduct.

Context {S : Type} `{Engine S}.

Lemma generate_engine name : keeps engine_kept (generate (S := S) name).
Proof.
  apply keeps_bind; [apply engine_kept_trans | intros w; split; reflexivity |].
  intros date.
  apply keeps_bind; [apply engine_kept_trans | intros w; split; reflexivity |].
  intros dir.
  apply keeps_bind; [apply engine_kept_trans | apply pipe_engine |].
  intros _. apply console_log_engine.
Qed.

Lemma migrate_exits to : exits_0_or_1 (migrate to).
Proof.
  apply exits_bind; [destruct to; apply umzug_up_exits |].
  intros ms. destruct (0 <? length ms)%nat; apply console_log_exits.
Qed.

Lemma undo_exits to : exits_0_or_1 (undo to).
Proof.
  apply exits_bind; [destruct to; apply umzug_down_exits |].
  intros ms. destruct (0 <? length ms)%nat; apply console_log_exits.
Qed.

Lemma checkMigrations_exits : exits_0_or_1 checkMigrations.
Proof.
  apply exits_bind; [apply umzug_pending_exits |].
  intros ms. apply exits_bind.
  - destruct (0 <? length ms)%nat.
    + apply exits_bind; [apply console_log_exits |].
      intros _ w code [= <-]. now right.
    + intros w code. discriminate.
  - intros _ w code [= <-]. now left.
Qed.

Lemma printPending_exits : exits_0_or_1 printPending.
Proof.
  apply exits_bind; [apply umzug_pending_exits |].
  intros ms. destruct (0 <? length ms)%nat; [|apply console_log_exits].
  apply exits_bind; [apply console_log_exits |].
  intros _. apply printMigrations_exits.
Qed.

Lemma printExecuted_exits : exits_0_or_1 printExecuted.
Proof.
  apply exits_bind; [apply umzug_storage_executed_exits |].
  intros ms. destruct (0 <? length ms)%nat; [|apply console_log_exits].
  apply exits_bind; [apply console_log_exits |].
  intros _. apply printMigrations_exits.
Qed.

Lemma generate_exits name : exits_0_or_1 (generate (S := S) name).
Proof.
  apply exits_bind; [intros w code; discriminate |]. intros date.
  apply exits_bind; [intros w code; discriminate |]. intros dir.
  apply exits_bind; [apply pipe_exits |]. intros _. apply console_log_exits.
Qed.

Lemma strictEq_true (v : option string) (lit : string) :
  Js.strictEq v lit = true -> v = Some lit.
Proof.
  destruct v as [s|]; simpl; [|discriminate].
  intros Heq. apply String.eqb_eq in Heq. now subst.
Qed.

Ltac dispatch task :=
  unfold runTask;
  repeat match goal with
  | |- context [Js.strictEq task ?lit] =>
      let E := fresh "E" in destruct (Js.strictEq task lit) eqn:E
  end.

Lemma runTask_exits task o : exits_0_or_1 (runTask task o).
Proof.
  dispatch task.
  - apply checkMigrations_exits.
  - apply migrate_exits.
  - apply printPending_exits.
  - apply printExecuted_exits.
  - apply undo_exits.
  - apply undo_exits.
  - apply exits_bind; [apply undo_exits | intros _; apply migrate_exits].
  - destruct (migrationName o) as [name|]; [|intros w code; discriminate].
    destruct (Js.truthy (Some name)); [apply generate_exits |].
    intros w code. discriminate.
  - apply exits_bind; [|intros _; apply console_log_exits].
    destruct (Js.truthy task); intros w code; discriminate.
Qed.

Lemma finish_fields (r : outcome unit * World S) :
  files (finish r).2 = files r.2 /\ trace (finish r).2 = trace r.2
  /\ engine (finish r).2 = engine r.2.
Proof. destruct r as [[[]|e|c] w]; repeat split. Qed.

(** X1: whatever the command line and whatever the engine answers, the
    process ends with exit code 0 or 1. *)
Theorem exit_code_is_0_or_1 (argv : list string) (w : World S) :
  (main argv w).1 = 0%Z \/ (main argv w).1 = 1%Z.
Proof.
  rewrite main_runs.
  pose proof (runTask_exits (task_of argv) (options_of argv) (constructed w)) as Hx.
  destruct (runTask _ _ _) as [[[]|e|code] w'] eqn:Hrun; simpl.
  - now left.
  - now right.
  - apply (Hx code). reflexivity.
Qed.

(** X3: [migration:generate] never calls the engine and leaves its state
    alone, whether the file is written, the name is missing or the copy
    fails. *)
Theorem generate_never_calls_engine (argv : list string) (w : World S) :
  argv !! 2%nat = Some "migration:generate" ->
  trace (main argv w).2 = trace w /\ engine (main argv w).2 = engine w.
Proof.
  intros Hv. rewrite main_runs.
  destruct (finish_fields (runTask (task_of argv) (options_of argv) (constructed w)))
    as (_ & -> & ->).
  unfold task_of. rewrite Hv.
  change (runTask (Some "migration:generate") (options_of argv)) with
    (match migrationName (options_of argv) with
     | Some name =>
         if Js.truthy (Some name) then generate name
         else throw (S := S) (Error "Migration name should be specified.")
     | None => throw (Error "Migration name should be specified.")
     end).
  destruct (migrationName (options_of argv)) as [name|]; [|split; reflexivity].
  destruct (Js.truthy (Some name)); [|split; reflexivity].
  apply (generate_engine name (constructed w)).
Qed.

End Conduct.

(** ** What the verbs print *)

Section Outputs.

Context {S : Type} `{Engine S}.

Lemma after_pending {A} (k : list migration -> M S A) (w : World S) :
  (forall ms, keeps engine_kept (k ms)) ->
  trace ((umzug_pending ≫= k) w).2 = trace w ++ [CallPending]
  /\ engine ((umzug_pending ≫= k) w).2 = (eng_pending (engine w)).2.
Proof.
  intros Hk. unfold umzug_pending, mbind, M_bind, bind.
  destruct (eng_pending (engine w)) as [[ms|e] s']; simpl; [|split; reflexivity].
  destruct (Hk ms (set_engine s' CallPending w)) as [Ht He].
  destruct (k ms _) as [o w']. simpl in *. now rewrite Ht, He.
Qed.

Lemma after_executed {A} (k : list migration -> M S A) (w : World S) :
  (forall ms, keeps engine_kept (k ms)) ->
  trace ((umzug_storage_executed ≫= k) w).2 = trace w ++ [CallExecuted]
  /\ engine ((umzug_storage_executed ≫= k) w).2 = (eng_executed (engine w)).2.
Proof.
  intros Hk. unfold umzug_storage_executed, mbind, M_bind, bind.
  destruct (eng_executed (engine w)) as [[ms|e] s']; simpl; [|split; reflexivity].
  destruct (Hk ms (set_engine s' CallExecuted w)) as [Ht He].
  destruct (k ms _) as [o w']. simpl in *. now rewrite Ht, He.
Qed.

Lemma listing_engine (header none : string) (ms : list migration) :
  keeps engine_kept
    (if (0 <? length ms)%nat
     then console_log (S := S) header;; _printMigrations ms
     else console_log none).
Proof.
  destruct (0 <? length ms)%nat; [|apply console_log_engine].
  apply keeps_bind; [apply engine_kept_trans | apply console_log_engine |].
  intros _. apply printMigrations_engine.
Qed.

(** X4: [db:migrate:status] makes exactly one call on the engine,
    [pending], and [db:migrate:history] exactly one, [storage.executed];
    whatever the answer, neither applies or reverts a migration, and the
    engine is left in the state that call gave it. *)
Theorem listings_call_engine_once (argv : list string) (w : World S) :
  (argv !! 2%nat = Some "db:migrate:status" ->
     trace (main argv w).2 = trace w ++ [CallPending]
     /\ engine (main argv w).2 = (eng_pending (engine w)).2)
  /\ (argv !! 2%nat = Some "db:migrate:history" ->
        trace (main argv w).2 = trace w ++ [CallExecuted]
        /\ engine (main argv w).2 = (eng_executed (engine w)).2).
Proof.
  split; intros Hv.
  - rewrite (main_status _ _ Hv).
    destruct (finish_fields (printPending (constructed w))) as (_ & -> & ->).
    apply (after_pending _ (constructed w)).
    intros ms. apply listing_engine.
  - rewrite (main_history _ _ Hv).
    destruct (finish_fields (printExecuted (constructed w))) as (_ & -> & ->).
    apply (after_executed _ (constructed w)).
    intros ms. apply listing_engine.
Qed.

(** X5: with nothing pending [db:migrate:status] prints the single line
    'No pending migrations.', and with nothing executed
    [db:migrate:history] prints 'No executed migrations.'; both exit with
    code 0. *)
Theorem empty_listings_say_so (argv : list string) (w : World S) (s' : S) :
  (argv !! 2%nat = Some "db:migrate:status" ->
   eng_pending (engine w) = (Resolved [], s') ->
   (main argv w).1 = 0%Z
   /\ stdout (main argv w).2 = stdout w ++ ["No pending migrations."])
  /\ (argv !! 2%nat = Some "db:migrate:history" ->
      eng_executed (engine w) = (Resolved [], s') ->
      (main argv w).1 = 0%Z
      /\ stdout (main argv w).2 = stdout w ++ ["No executed migrations."]).
Proof.
  split; intros Hv Hp.
  - rewrite (main_status _ _ Hv).
    unfold printPending, umzug_pending, mbind, M_bind, bind.
    change (engine (constructed w)) with (engine w). rewrite Hp.
    split; reflexivity.
  - rewrite (main_history _ _ Hv).
    unfold printExecuted, umzug_storage_executed, mbind, M_bind, bind.
    change (engine (constructed w)) with (engine w). rewrite Hp.
    split; reflexivity.
Qed.

(** X6: when [down] resolves to N migrations, [db:migrate:undo] and
    [db:migrate:undo:all] exit with code 0 after printing the lines of the
    events the engine emitted and then 'Reverted N migrations.' (N > 0) or
    'No migrations were reverted.' (N = 0). *)
Theorem undo_prints_count
    (argv : list string) (w : World S) (to : option destination) evs ms s' :
  (argv !! 2%nat = Some "db:migrate:undo" /\ to = ToId <$> argv !! 3%nat)
  \/ (argv !! 2%nat = Some "db:migrate:undo:all" /\ to = Some ToZero) ->
  eng_down to (engine w) = (evs, Resolved ms, s') ->
  (main argv w).1 = 0%Z
  /\ stdout (main argv w).2 =
     stdout w ++ event_lines (listeners w) evs
     ++ [ if (0 <? length ms)%nat
          then "Reverted " +:+ Js.toString (Z.of_nat (length ms))
               +:+ " migrations."
          else "No migrations were reverted." ].
Proof.
  intros Hv Hdown.
  assert (Hmain : main argv w = finish (undo to (constructed w))).
  { destruct Hv as [[Hv ->] | [Hv ->]];
      [apply (main_undo _ _ Hv) | apply (main_undo_all _ _ Hv)]. }
  rewrite Hmain, (undo_run _ (constructed w) evs _ s' Hdown).
  split; [reflexivity |]. cbn.
  rewrite emitted_constructed, <- app_assoc. reflexivity.
Qed.

(** X7: [db:migrate:check] with N > 0 pending migrations prints one
    message of three lines, the first of which gives N; with none pending
    it prints nothing. *)
Theorem check_reports_pending_count
    (argv : list string) (w : World S) (ms : list migration) (s' : S) :
  argv !! 2%nat = Some "db:migrate:check" ->
  eng_pending (engine w) = (Resolved ms, s') ->
  (ms <> [] ->
     stdout (main argv w).2 =
     stdout w
     ++ [ "You have " +:+ Js.toString (Z.of_nat (length ms))
          +:+ " pending migrations." +:+ Js.nl
          +:+ "Use '$ npm run umzug db:migrate:status' to show them." +:+ Js.nl
          +:+ "Use '$ npm run umzug db:migrate' to execute all pending migrations." ])
  /\ (ms = [] -> stdout (main argv w).2 = stdout w).
Proof.
  intros Hv Hp. rewrite (main_check _ _ Hv).
  unfold checkMigrations, umzug_pending, mbind, M_bind, bind.
  change (engine (constructed w)) with (engine w). rewrite Hp.
  destruct ms as [|m ms]; split; try done; intros _; cbn.
  do 2 f_equal. unfold Js.join. rewrite !append_assoc. reflexivity.
Qed.

(** X8: when the template is absent and the copy raises no other stream
    error, [migration:generate] exits with code 1 after printing the
    ENOENT error of the template path and no line of success; the target
    path is left as an empty file and no other file is changed. *)
Theorem generate_without_template_fails
    (argv : list string) (w : World S) (name : string) :
  argv !! 2%nat = Some "migration:generate" ->
  argv !! 3%nat = Some name -> name <> "" ->
  let source := path_resolve (cwd w) "migrations" "migration.sample.js" in
  let target :=
    path_resolve (cwd w) "migrations"
                 (timestamp_of (clock w) +:+ "-" +:+ name +:+ ".js") in
  files w !! source = None ->
  faults w source target = None ->
  (main argv w).1 = 1%Z
  /\ stdout (main argv w).2 =
     stdout w ++ [ "Error: ENOENT: no such file or directory, open '"
                   +:+ source +:+ "'" ]
  /\ files (main argv w).2 = <[target := ""]> (files w).
Proof.
  intros Hv Hn Hne source target Htpl Hok.
  rewrite (main_generate _ _ _ Hv Hn Hne).
  unfold generate, new_Date, process_cwd, pipe, mbind, M_bind, bind.
  change (files (constructed w)) with (files w).
  change (faults (constructed w)) with (faults w).
  change (cwd (constructed w)) with (cwd w).
  change (clock (constructed w)) with (clock w).
  fold source. fold target. rewrite Hok, Htpl.
  split; [reflexivity | split; reflexivity].
Qed.

(** X9: [db:reset] is not undone when the apply fails: if [down] resolves
    and [up] then rejects, both calls have been made, the engine is in the
    state the failed [up] left, the error is the last line printed and the
    exit code is 1. *)
Theorem reset_keeps_reverts_when_apply_fails
    (argv : list string) (w : World S) evs ms s1 evs' e s2 :
  argv !! 2%nat = Some "db:reset" ->
  eng_down (Some ToZero) (engine w) = (evs, Resolved ms, s1) ->
  eng_up None s1 = (evs', Rejected e, s2) ->
  (main argv w).1 = 1%Z
  /\ trace (main argv w).2 = trace w ++ [CallDown (Some ToZero); CallUp None]
  /\ engine (main argv w).2 = s2
  /\ stdout (main argv w).2 =
     stdout w ++ event_lines (listeners w) evs ++ [reverted_line (length ms)]
     ++ event_lines (listeners w) evs' ++ ["Error: " +:+ message e].
Proof.
  intros Hv Hdown Hup. rewrite (main_reset _ _ Hv).
  unfold mbind, M_bind, bind.
  rewrite (undo_run _ (constructed w) evs _ s1 Hdown). cbv zeta.
  match goal with
  | |- context [migrate None ?w1] =>
      rewrite (migrate_run None w1 evs' (Rejected e) s2 Hup)
  end.
  split; [reflexivity | split; [|split; [reflexivity |]]].
  - cbn. rewrite <- app_assoc. reflexivity.
  - cbn. rewrite !emitted_constructed, <- !app_assoc. reflexivity.
Qed.

End Outputs.

(** ** Names of generated files *)

Lemma occurs_unfold (pat s : string) :
  occurs pat s =
  String.prefix pat s
  || match s with
     | "" => false
     | String _ r => occurs pat r
     end.
Proof. destruct s; reflexivity. Qed.

Lemma replace_absent (pat rep s : string) :
  occurs pat s = false -> Js.replace pat rep s = s.
Proof.
  induction s as [|c s IH]; intros Ho; rewrite occurs_unfold in Ho;
    apply orb_false_elim in Ho as [Hp Ho]; rewrite replace_unfold, Hp.
  - reflexivity.
  - now rewrite IH.
Qed.

Lemma prefix_js_extended (c : ascii) (r : string) :
  String.prefix ".js" (String c r) = false ->
  String.prefix ".js" (String c (r +:+ ".js")) = false.
Proof.
  rewrite !string_prefix_cons. destruct (Ascii.ascii_dec "." c) as [_|_]; [|reflexivity].
  destruct r as [|c2 r]; [reflexivity |]. rewrite append_cons, !string_prefix_cons.
  destruct (Ascii.ascii_dec "j" c2) as [_|_]; [|reflexivity].
  destruct r as [|c3 r]; [reflexivity |]. rewrite append_cons, !string_prefix_cons.
  destruct (Ascii.ascii_dec "s" c3) as [_|_]; [|reflexivity].
  now destruct r.
Qed.

Lemma replace_strips_js (base : string) :
  occurs ".js" base = false -> Js.replace ".js" "" (base +:+ ".js") = base.
Proof.
  induction base as [|c r IH]; intros Ho; [reflexivity |].
  rewrite occurs_unfold in Ho. apply orb_false_elim in Ho as [Hp Ho].
  rewrite append_cons, replace_unfold, (prefix_js_extended _ _ Hp).
  now rewrite IH.
Qed.

Lemma replace_past_prefix (a t : string) :
  no_dot a = true -> Js.replace ".js" "" (a +:+ t) = a +:+ Js.replace ".js" "" t.
Proof.
  induction a as [|c a IH]; intros Ha; [reflexivity |].
  simpl in Ha. apply andb_prop in Ha as [Hc Ha].
  rewrite !append_cons, replace_unfold.
  replace (String.prefix ".js" (String c (a +:+ t))) with false.
  - now rewrite IH.
  - rewrite string_prefix_cons.
    destruct (Ascii.ascii_dec "." c) as [<-|_]; [discriminate | reflexivity].
Qed.

Lemma no_dot_append (a b : string) : no_dot (a +:+ b) = no_dot a && no_dot b.
Proof.
  induction a as [|c a IH]; [reflexivity |].
  rewrite append_cons. simpl. rewrite IH. now rewrite andb_assoc.
Qed.

Lemma no_dot_toString (n : Z) : no_dot (Js.toString n) = true.
Proof.
  assert (Hu : forall d, no_dot (NilEmpty.string_of_uint d) = true).
  { induction d; simpl; auto. }
  assert (Hz : forall d, no_dot (NilZero.string_of_uint d) = true).
  { intros d. destruct d; try apply Hu. reflexivity. }
  unfold Js.toString. destruct n; simpl; auto.
Qed.

Lemma no_dot_format (n : Z) : no_dot (_format n) = true.
Proof.
  unfold _format, Js.padStart. pose proof (no_dot_toString n) as Hs.
  destruct (2 <=? String.length (Js.toString n))%nat; [exact Hs |].
  rewrite no_dot_append, Hs, andb_true_r.
  destruct (2 - String.length (Js.toString n))%nat as [|[|[|k]]] eqn:Hk;
    try reflexivity; lia.
Qed.

Lemma no_dot_timestamp (d : UTCDate) : no_dot (timestamp_of d) = true.
Proof.
  unfold timestamp_of, Js.join.
  rewrite !no_dot_append, no_dot_toString, !no_dot_format. reflexivity.
Qed.

Lemma toString_two_chars (n : Z) :
  (n < 0 \/ 10 <= n)%Z -> (2 <= String.length (Js.toString n))%nat.
Proof.
  assert (Hne : forall d, d <> Decimal.Nil ->
                  (1 <= String.length (NilEmpty.string_of_uint d))%nat).
  { intros d Hd. destruct d; simpl; try lia. congruence. }
  intros Hn. unfold Js.toString. destruct n as [|p|p]; [lia | |].
  - simpl. pose proof (Unsigned.to_uint_nonnil p) as Hnil.
    pose proof (Unsigned.of_to p) as Hof.
    destruct (Pos.to_uint p) as [|d|d|d|d|d|d|d|d|d|d] eqn:Hd; [congruence | ..];
      (destruct d;
       [simpl in Hof; first [discriminate | injection Hof as Hof; lia] | ..]);
      simpl; lia.
  - simpl. pose proof (Unsigned.to_uint_nonnil p) as Hnil.
    specialize (Hne _ Hnil).
    destruct (Pos.to_uint p); [congruence | ..]; simpl in *; lia.
Qed.

Section Names.

Context {S : Type} `{Engine S}.

(** X10: [_format] puts one '0' before a number from 0 to 9 and leaves
    every other integer as [toString] writes it. *)
Theorem format_pads_single_digits_only (n : Z) :
  ((0 <= n <= 9)%Z -> _format n = "0" +:+ Js.toString n)
  /\ ((n < 0 \/ 10 <= n)%Z -> _format n = Js.toString n).
Proof.
  split.
  - intros Hn.
    assert (Hall : forallb (fun k => String.eqb (_format (Z.of_nat k))
                                                ("0" +:+ Js.toString (Z.of_nat k)))
                           (seq 0 10) = true) by (vm_compute; reflexivity).
    rewrite forallb_forall in Hall. specialize (Hall (Z.to_nat n)).
    rewrite Z2Nat.id in Hall by lia.
    apply String.eqb_eq, Hall, in_seq. lia.
  - intros Hn. unfold _format, Js.padStart.
    pose proof (toString_two_chars n Hn) as Hlen.
    destruct (Nat.leb_spec 2 (String.length (Js.toString n))); [reflexivity | lia].
Qed.

(** X11: a file name that ends in '.js' and holds no other '.js' is
    listed without the extension; a name that holds no '.js' at all is
    listed as it is. *)
Theorem listing_strips_the_extension
    (base : string) (i : Z) (w : World S) :
  occurs ".js" base = false ->
  _printMigration (MigrationName (base +:+ ".js")) (Some i) w
  = (Return tt,
     set_stdout (stdout w ++ ["  " +:+ Js.toString i +:+ ") " +:+ base]) w)
  /\ _printMigration (MigrationName base) (Some i) w
     = (Return tt,
        set_stdout (stdout w ++ ["  " +:+ Js.toString i +:+ ") " +:+ base]) w).
Proof.
  intros Ho. split.
  - rewrite printMigration_run by exact I. simpl file_of.
    now rewrite replace_strips_js.
  - rewrite printMigration_run by exact I. simpl file_of.
    now rewrite replace_absent.
Qed.

(** X12: the file that [generate] names for a migration name without
    '.js' is listed under the timestamp, '-', and that name: the listing
    removes exactly the extension that [generate] added. *)
Theorem generated_file_is_listed_by_name
    (d : UTCDate) (name : string) (i : Z) (w : World S) :
  occurs ".js" name = false ->
  _printMigration
    (MigrationObj (timestamp_of d +:+ "-" +:+ name +:+ ".js")) (Some i) w
  = (Return tt,
     set_stdout (stdout w ++ [ "  " +:+ Js.toString i +:+ ") "
                               +:+ timestamp_of d +:+ "-" +:+ name ]) w).
Proof.
  intros Ho. rewrite printMigration_run.
  - simpl file_of.
    replace (timestamp_of d +:+ "-" +:+ name +:+ ".js")
      with ((timestamp_of d +:+ "-") +:+ (name +:+ ".js"))
      by now rewrite append_assoc.
    rewrite replace_past_prefix, replace_strips_js, append_assoc; [done.. |].
    now rewrite no_dot_append, no_dot_timestamp.
  - simpl. pose proof (no_dot_timestamp d) as Hd.
    destruct (timestamp_of d); [|discriminate]. discriminate.
Qed.

End Names.

(** ** Order of generated names *)

Lemma compare_cons (c d : ascii) (s t : string) :
  String.compare (String c s) (String d t) =
  match Ascii.compare c d with
  | Eq => String.compare s t
  | Lt => Lt
  | Gt => Gt
  end.
Proof. reflexivity. Qed.

Lemma compare_refl (s : string) : String.compare s s = Eq.
Proof.
  induction s as [|c s IH]; [reflexivity |].
  rewrite compare_cons. unfold Ascii.compare. now rewrite N.compare_refl.
Qed.

Lemma compare_append (a1 a2 b1 b2 : string) :
  String.length a1 = String.length a2 ->
  String.compare (a1 +:+ b1) (a2 +:+ b2) =
  match String.compare a1 a2 with
  | Eq => String.compare b1 b2
  | Lt => Lt
  | Gt => Gt
  end.
Proof.
  revert a2. induction a1 as [|c a1 IH]; intros [|d a2] Hlen;
    try discriminate; [reflexivity |].
  rewrite !append_cons, !compare_cons.
  destruct (Ascii.compare c d); try reflexivity.
  apply IH. simpl in Hlen. lia.
Qed.

Lemma digit_lt (a b : nat) :
  (a < b < 10)%nat ->
  Ascii.compare (ascii_of_nat (48 + a)) (ascii_of_nat (48 + b)) = Lt.
Proof.
  intros Hab.
  assert (Hall : forallb (fun x => forallb (fun y =>
                    if (x <? y)%nat
                    then match Ascii.compare (ascii_of_nat (48 + x))
                                             (ascii_of_nat (48 + y)) with
                         | Lt => true
                         | _ => false
                         end
                    else true) (seq 0 10)) (seq 0 10) = true)
    by (vm_compute; reflexivity).
  rewrite forallb_forall in Hall.
  specialize (Hall a ltac:(apply in_seq; lia)).
  rewrite forallb_forall in Hall.
  specialize (Hall b ltac:(apply in_seq; lia)).
  destruct (Nat.ltb_spec a b); [|lia].
  now destruct (Ascii.compare _ _).
Qed.

Lemma fixed_width_lt (k : nat) (n m : Z) :
  (0 <= n < m)%Z -> (m < 10 ^ Z.of_nat k)%Z ->
  String.compare (fixed_width k n) (fixed_width k m) = Lt.
Proof.
  revert n m. induction k as [|k IH]; intros n m Hnm Hm.
  - simpl in Hm. lia.
  - rewrite Nat2Z.inj_succ, Z.pow_succ_r in Hm by lia.
    rewrite !fixed_width_step, compare_append by now rewrite !fixed_width_length.
    pose proof (Z.div_mod n 10 ltac:(lia)) as Hn.
    pose proof (Z.div_mod m 10 ltac:(lia)) as Hm'.
    pose proof (Z.mod_pos_bound n 10 ltac:(lia)).
    pose proof (Z.mod_pos_bound m 10 ltac:(lia)).
    destruct (Z.lt_trichotomy (n / 10) (m / 10)) as [Hlt | [Heq | Hgt]]; [| |lia].
    + rewrite IH; [reflexivity | lia | lia].
    + rewrite Heq, compare_refl, compare_cons, digit_lt; [reflexivity | lia].
Qed.

(** X13: between two instants with four-digit years, the earlier one gets
    the timestamp that comes first in string order, and so does the file
    generated at it, whatever the two migration names are. *)
Theorem earlier_files_sort_first (d1 d2 : UTCDate) (name1 name2 : string) :
  in_range d1 -> in_range d2 ->
  (1000 <= utcFullYear d1 <= 9999)%Z -> (1000 <= utcFullYear d2 <= 9999)%Z ->
  earlier d1 d2 ->
  String.compare (timestamp_of d1) (timestamp_of d2) = Lt
  /\ String.compare (timestamp_of d1 +:+ "-" +:+ name1 +:+ ".js")
                    (timestamp_of d2 +:+ "-" +:+ name2 +:+ ".js") = Lt.
Proof.
  intros Hr1 Hr2 Hy1 Hy2 Hlt.
  assert (Hts : String.compare (timestamp_of d1) (timestamp_of d2) = Lt).
  { rewrite !timestamp_format by assumption.
    destruct Hr1 as (? & ? & ? & ? & ?), Hr2 as (? & ? & ? & ? & ?).
    unfold YYYYMMDDHHMMSS.
    unfold earlier, lex_lt in Hlt.
    assert (H100 : (10 ^ Z.of_nat 2 = 100)%Z) by reflexivity.
    assert (H10000 : (10 ^ Z.of_nat 4 = 10000)%Z) by reflexivity.
    repeat
      (rewrite compare_append by (now rewrite !fixed_width_length);
       destruct Hlt as [Hlt | [Heq Hlt]];
       [rewrite fixed_width_lt by lia; reflexivity
       | rewrite Heq, compare_refl; clear Heq]).
    destruct Hlt as [Hlt | [_ []]].
    rewrite fixed_width_lt by lia. reflexivity. }
  split; [exact Hts |].
  rewrite compare_append, Hts; [reflexivity |].
  rewrite !timestamp_format by assumption.
  now rewrite (proj1 (YYYYMMDDHHMMSS_shape d1)), (proj1 (YYYYMMDDHHMMSS_shape d2)).
Qed.

(** ** The further statements on sample projects *)

Import Scripted.

(** Generating a file in the sample project. *)
Lemma generate_never_calls_engine_witness :
  trace (main ["node"; "cli.js"; "migration:generate"; "add-index"]
              sample_world).2 = []
  /\ engine (main ["node"; "cli.js"; "migration:generate"; "add-index"]
                  sample_world).2 = sample_state.
Proof.
  exact (generate_never_calls_engine (H := spec_engine)
           ["node"; "cli.js"; "migration:generate"; "add-index"] sample_world
           eq_refl).
Defined.

(** The two listings of the sample project. *)
Lemma listings_call_engine_once_witness :
  trace (main ["node"; "cli.js"; "db:migrate:status"] sample_world).2
  = [CallPending]
  /\ trace (main ["node"; "cli.js"; "db:migrate:history"] sample_world).2
     = [CallExecuted].
Proof.
  split.
  - exact (proj1 (proj1 (listings_call_engine_once (H := spec_engine)
                           ["node"; "cli.js"; "db:migrate:status"] sample_world)
                        eq_refl)).
  - exact (proj1 (proj2 (listings_call_engine_once (H := spec_engine)
                           ["node"; "cli.js"; "db:migrate:history"] sample_world)
                        eq_refl)).
Defined.

(** A project whose only unit has run, and one whose only unit has not. *)
Lemma empty_listings_say_so_witness :
  stdout (main ["node"; "cli.js"; "db:migrate:status"]
               (sample_world_with {| units := ["20220101000000-a.js"];
                                     logged := ["20220101000000-a.js"] |})).2
  = ["No pending migrations."]
  /\ stdout (main ["node"; "cli.js"; "db:migrate:history"]
                  (sample_world_with {| units := ["20220101000000-a.js"];
                                        logged := [] |})).2
     = ["No executed migrations."].
Proof.
  split.
  - exact (proj2 (proj1 (empty_listings_say_so (H := spec_engine)
                           ["node"; "cli.js"; "db:migrate:status"]
                           (sample_world_with
                              {| units := ["20220101000000-a.js"];
                                 logged := ["20220101000000-a.js"] |})
                           {| units := ["20220101000000-a.js"];
                              logged := ["20220101000000-a.js"] |})
                        eq_refl eq_refl)).
  - exact (proj2 (proj2 (empty_listings_say_so (H := spec_engine)
                           ["node"; "cli.js"; "db:migrate:history"]
                           (sample_world_with
                              {| units := ["20220101000000-a.js"];
                                 logged := [] |})
                           {| units := ["20220101000000-a.js"]; logged := [] |})
                        eq_refl eq_refl)).
Defined.

(** Undoing the only executed unit of the sample project, then all. *)
Lemma undo_prints_count_witness :
  stdout (main ["node"; "cli.js"; "db:migrate:undo"] sample_world).2
  = [ "== 20220101000000-a.js: reverting ==";
      "== 20220101000000-a.js: reverted ==" +:+ Js.nl;
      "Reverted 1 migrations." ]
  /\ stdout (main ["node"; "cli.js"; "db:migrate:undo:all"]
                  (sample_world_with {| units := ["20220101000000-a.js"];
                                        logged := [] |})).2
     = ["No migrations were reverted."].
Proof.
  split.
  - exact (proj2 (undo_prints_count (H := spec_engine)
                    ["node"; "cli.js"; "db:migrate:undo"] sample_world None
                    (down None sample_state).1.1
                    [MigrationObj "20220101000000-a.js"]
                    (down None sample_state).2
                    (or_introl (conj eq_refl eq_refl)) eq_refl)).
  - exact (proj2 (undo_prints_count (H := spec_engine)
                    ["node"; "cli.js"; "db:migrate:undo:all"]
                    (sample_world_with {| units := ["20220101000000-a.js"];
                                          logged := [] |})
                    (Some ToZero) [] []
                    {| units := ["20220101000000-a.js"]; logged := [] |}
                    (or_intror (conj eq_refl eq_refl)) eq_refl)).
Defined.

(** The check on the sample project, where two units are pending. *)
Lemma check_reports_pending_count_witness :
  stdout (main ["node"; "cli.js"; "db:migrate:check"] sample_world).2
  = [ "You have 2 pending migrations." +:+ Js.nl
      +:+ "Use '$ npm run umzug db:migrate:status' to show them." +:+ Js.nl
      +:+ "Use '$ npm run umzug db:migrate' to execute all pending migrations." ].
Proof.
  refine (proj1 (check_reports_pending_count (H := spec_engine)
                   ["node"; "cli.js"; "db:migrate:check"] sample_world
                   [ MigrationObj "20220202000000-b.js.old.js";
                     MigrationObj "20220303000000-c.js" ]
                   sample_state eq_refl eq_refl) _).
  discriminate.
Defined.

(** The sample project without its template, for the name [a/../b], which
    resolves to [b.js] in the migrations directory. *)
Lemma generate_without_template_fails_witness :
  let argv := ["node"; "cli.js"; "migration:generate"; "a/../b"] in
  let w := set_files ∅ sample_world in
  (main argv w).1 = 1%Z
  /\ stdout (main argv w).2
     = ["Error: ENOENT: no such file or directory, open '/app/migrations/migration.sample.js'"]
  /\ files (main argv w).2 = {[ "/app/migrations/b.js" := "" ]}.
Proof.
  intros argv w.
  assert (Hname : "a/../b" <> "") by discriminate.
  destruct (generate_without_template_fails (H := spec_engine)
              argv w "a/../b" eq_refl eq_refl Hname eq_refl eq_refl)
    as (Hcode & Hout & Hfiles).
  split; [exact Hcode | split; [exact Hout |]].
  rewrite Hfiles. vm_compute. reflexivity.
Defined.

(** An engine whose [down] succeeds and whose [up] is unavailable. *)
Lemma reset_keeps_reverts_when_apply_fails_witness :
  let a := {| Scripted.on_pending := Resolved [];
              Scripted.on_executed := Resolved [];
              Scripted.on_up := Rejected Scripted.unavailable;
              Scripted.on_down := Resolved [] |} in
  let out := main ["node"; "cli.js"; "db:reset"] (Scripted.world_of a) in
  out.1 = 1%Z
  /\ trace out.2 = [CallDown (Some ToZero); CallUp None]
  /\ stdout out.2
     = ["No migrations were reverted."; "Error: storage unavailable"].
Proof.
  intros a out.
  destruct (reset_keeps_reverts_when_apply_fails (H := Scripted.scripted_engine)
              ["node"; "cli.js"; "db:reset"] (Scripted.world_of a)
              [] [] a [] Scripted.unavailable a eq_refl eq_refl eq_refl)
    as (Hcode & Htrace & _ & Hout).
  split; [exact Hcode | split; [exact Htrace | exact Hout]].
Defined.

(** An engine whose [down] is unavailable. *)
Lemma reset_stops_when_revert_fails_witness :
  let a := {| Scripted.on_pending := Resolved [];
              Scripted.on_executed := Resolved [];
              Scripted.on_up := Resolved [];
              Scripted.on_down := Rejected Scripted.unavailable |} in
  let out := main ["node"; "cli.js"; "db:reset"] (Scripted.world_of a) in
  out.1 = 1%Z /\ trace out.2 = [CallDown (Some ToZero)].
Proof.
  intros a out.
  destruct (reset_stops_when_revert_fails (H := Scripted.scripted_engine)
              ["node"; "cli.js"; "db:reset"] (Scripted.world_of a)
              [] Scripted.unavailable a eq_refl eq_refl)
    as (Hcode & Htrace & _).
  split; [exact Hcode | exact Htrace].
Defined.

(** Seven seconds, and forty-two. *)
Lemma format_pads_single_digits_only_witness :
  _format 7 = "07" /\ _format 42 = "42".
Proof.
  split.
  - apply (proj1 (format_pads_single_digits_only 7)). lia.
  - apply (proj2 (format_pads_single_digits_only 42)). lia.
Defined.

(** The first unit of the sample project. *)
Lemma listing_strips_the_extension_witness :
  _printMigration (MigrationName "20220101000000-a.js") (Some 1%Z) sample_world
  = (Return tt, set_stdout ["  1) 20220101000000-a"] sample_world).
Proof.
  exact (proj1 (listing_strips_the_extension (S := state)
                  "20220101000000-a" 1%Z sample_world eq_refl)).
Defined.

(** The file generated for [add-index] in the sample project. *)
Lemma generated_file_is_listed_by_name_witness :
  _printMigration (MigrationObj "20230101120000-add-index.js") (Some 3%Z)
                  sample_world
  = (Return tt, set_stdout ["  3) 20230101120000-add-index"] sample_world).
Proof.
  exact (generated_file_is_listed_by_name (S := state)
           sample_date "add-index" 3%Z sample_world eq_refl).
Defined.

(** One second before midnight of a new year, and that midnight. *)
Lemma earlier_files_sort_first_witness :
  String.compare "20221231235959-zz.js" "20230101000000-aa.js" = Lt.
Proof.
  assert (Hr1 : in_range (Build_UTCDate 2022 11 31 23 59 59))
    by (unfold in_range; simpl; lia).
  assert (Hr2 : in_range (Build_UTCDate 2023 0 1 0 0 0))
    by (unfold in_range; simpl; lia).
  assert (He : earlier (Build_UTCDate 2022 11 31 23 59 59)
                       (Build_UTCDate 2023 0 1 0 0 0))
    by (unfold earlier; simpl; lia).
  exact (proj2 (earlier_files_sort_first
                  (Build_UTCDate 2022 11 31 23 59 59)
                  (Build_UTCDate 2023 0 1 0 0 0) "zz" "aa"
                  Hr1 Hr2 ltac:(simpl; lia) ltac:(simpl; lia) He)).
Defined.
